(** * Kalshi analyzer: the analysis pipeline of [netlify/functions/analyze.py]

    A shallow embedding of [KalshiAnalyzer] (market fetch, news lookup,
    probability estimate, edge and recommendation, orchestration) and the
    properties its specification states about it.

    Python values are an inductive type, Python floats are the kernel's
    binary64 floats, strings are sequences of Unicode code points, exceptions
    are values of an error type, and the external services (market API, news
    providers, language model) are oracles of a [world] that answer from the
    history of calls made so far; the [world] also says which interpreter
    runs the program, where that changes what the code does. *)

From Stdlib Require Import List ZArith NArith Bool Lia Floats String Ascii DecimalString.
From Stdlib Require Import Sorting.Permutation Sorting.Sorted.
Import ListNotations.

Set Warnings "-inexact-float,-register-all".
Open Scope Z_scope.

(** ** Strings *)

(** A Python [str]: its code points, in order. *)
Definition pystr := list N.

(** An ASCII string literal of the source, character by character. *)
Definition lit (s : string) : pystr :=
  map N_of_ascii (list_ascii_of_string s).
Arguments lit s%_string.

(** The double quote and the line feed, which a literal here cannot hold. *)
Definition dq : pystr := [34%N].
Definition nl : pystr := [10%N].

Fixpoint str_eqb (a b : pystr) : bool :=
  match a, b with
  | [], [] => true
  | x :: a', y :: b' => N.eqb x y && str_eqb a' b'
  | _, _ => false
  end.

(** [str.isspace] on one character, the set [str.strip()] removes. *)
Definition is_space (c : N) : bool :=
  ((9 <=? c) && (c <=? 13) || (28 <=? c) && (c <=? 32)
   || (c =? 133) || (c =? 160) || (c =? 5760)
   || (8192 <=? c) && (c <=? 8202)
   || (c =? 8232) || (c =? 8233) || (c =? 8239) || (c =? 8287) || (c =? 12288))%N.

Fixpoint lstrip (s : pystr) : pystr :=
  match s with
  | [] => []
  | c :: s' => if is_space c then lstrip s' else s
  end.

Definition rstrip (s : pystr) : pystr := rev (lstrip (rev s)).

(** [s.strip()] *)
Definition strip (s : pystr) : pystr := rstrip (lstrip s).

Fixpoint starts_with (p s : pystr) : bool :=
  match p, s with
  | [], _ => true
  | _ :: _, [] => false
  | a :: p', b :: s' => N.eqb a b && starts_with p' s'
  end.

(** The scan of [str.replace] for a non-empty [old]: left to right, a match
    is replaced and the scan resumes after it ([skip] characters of the
    match are still to be passed over). *)
Fixpoint replace_from (old new : pystr) (skip : nat) (s : pystr) : pystr :=
  match s with
  | [] => []
  | c :: s' =>
      match skip with
      | S k => replace_from old new k s'
      | O =>
          if starts_with old s
          then new ++ replace_from old new (Nat.pred (List.length old)) s'
          else c :: replace_from old new 0 s'
      end
  end.

(** [s.replace(old, new)]; an empty [old] matches between all characters. *)
Definition replace (old new s : pystr) : pystr :=
  match old with
  | [] => new ++ flat_map (fun c => c :: new) s
  | _ :: _ => replace_from old new 0 s
  end.

(** [s[:n]] on a sequence, for any integer [n]. *)
Definition slice_to {A : Type} (n : Z) (l : list A) : list A :=
  if n <? 0 then firstn (Z.to_nat (Z.of_nat (List.length l) + n)) l
  else firstn (Z.to_nat n) l.

(** [str(z)] of an integer. *)
Definition str_of_int (z : Z) : pystr :=
  lit (NilZero.string_of_int (Z.to_int z)).

(** A surrogate code point: in a [str] it is a lone one, which UTF-8 cannot
    encode. *)
Definition is_surrogate (c : N) : bool := ((55296 <=? c) && (c <=? 57343))%N.

(** The text holds no surrogate. *)
Definition encodable (s : pystr) : bool := forallb (fun c => negb (is_surrogate c)) s.

Fixpoint surrogate_run (s : pystr) : nat :=
  match s with
  | c :: s' => if is_surrogate c then S (surrogate_run s') else 0
  | [] => 0
  end.

(** The first surrogate of [s], counted from [pos]: where it is, which it
    is, and how many surrogates follow it without a gap. *)
Fixpoint first_surrogate (pos : nat) (s : pystr) : option (nat * N * nat) :=
  match s with
  | [] => None
  | c :: s' =>
      if is_surrogate c then Some (pos, c, surrogate_run s')
      else first_surrogate (S pos) s'
  end.

Definition hex_char (d : N) : N := (if d <? 10 then 48 + d else 87 + d)%N.

(** The four hexadecimal digits of a code point below 65536. *)
Definition hex4_of (c : N) : pystr :=
  [ hex_char (c / 4096 mod 16); hex_char (c / 256 mod 16);
    hex_char (c / 16 mod 16); hex_char (c mod 16) ]%N.

(** ** Values and exceptions *)

Inductive pyval : Type :=
| PNone
| PBool (b : bool)
| PInt (z : Z)
| PFloat (f : float)
| PStr (s : pystr)
| PList (l : list pyval)
| PDict (d : list (pystr * pyval)).

Inductive exn_kind : Type :=
| AttributeError | TypeError | IndexError | KeyError | OverflowError
| ValueError | UnicodeEncodeError | RequestException | APIError | OtherError.

(** An exception: its class and [str(e)]. *)
Record exn : Type := Exn { exn_class : exn_kind; exn_str : pystr }.

Inductive res (A : Type) : Type :=
| Ok (a : A)
| Raise (e : exn).
Arguments Ok {A} a.
Arguments Raise {A} e.

Definition res_bind {A B : Type} (r : res A) (k : A -> res B) : res B :=
  match r with
  | Ok a => k a
  | Raise e => Raise e
  end.

(** [print(text)] on a standard output that encodes UTF-8 strictly, as a
    UTF-8 locale sets it up: a text with a surrogate is refused, with the
    message of the codec. Nothing the run does later depends on what was
    written, so the output itself is not kept. The other prints of the
    program write a fixed ASCII text with numbers or with the text of a
    caught exception, which is taken to hold no surrogate; they are left
    out. *)
Definition py_print (text : pystr) : res unit :=
  match first_surrogate 0 text with
  | None => Ok tt
  | Some (pos, c, more) =>
      Raise (Exn UnicodeEncodeError
               (match more with
                | O =>
                    lit "'utf-8' codec can't encode character '\u" ++ hex4_of c
                    ++ lit "' in position " ++ str_of_int (Z.of_nat pos)
                | S _ =>
                    lit "'utf-8' codec can't encode characters in position "
                    ++ str_of_int (Z.of_nat pos) ++ lit "-"
                    ++ str_of_int (Z.of_nat (pos + more))
                end ++ lit ": surrogates not allowed"))
  end.

Definition type_name (v : pyval) : pystr :=
  match v with
  | PNone => lit "NoneType"
  | PBool _ => lit "bool"
  | PInt _ => lit "int"
  | PFloat _ => lit "float"
  | PStr _ => lit "str"
  | PList _ => lit "list"
  | PDict _ => lit "dict"
  end.

(** A dict is kept as its items; a key is looked up at its first item. *)
Fixpoint dict_lookup (d : list (pystr * pyval)) (key : pystr) : option pyval :=
  match d with
  | [] => None
  | (k, v) :: d' => if str_eqb k key then Some v else dict_lookup d' key
  end.

Definition dict_get (d : list (pystr * pyval)) (key : pystr) (default : pyval)
  : pyval :=
  match dict_lookup d key with
  | Some x => x
  | None => default
  end.

(** [v.get(key, default)]: only a dict has the method. *)
Definition py_get (v : pyval) (key : pystr) (default : pyval) : res pyval :=
  match v with
  | PDict d => Ok (dict_get d key default)
  | _ =>
      Raise (Exn AttributeError
               (lit "'" ++ type_name v ++ lit "' object has no attribute 'get'"))
  end.

(** [v[:n]]: lists and strings are sliced. A dict looks the slice up as a
    key: up to Python 3.11 a slice cannot be hashed, from 3.12 it can
    ([hashable]) and is a key the dict does not have. Nothing else can be
    subscripted. *)
Definition py_slice_to (hashable : bool) (v : pyval) (n : Z) : res pyval :=
  match v with
  | PList l => Ok (PList (slice_to n l))
  | PStr s => Ok (PStr (slice_to n s))
  | PDict _ =>
      if hashable
      then Raise (Exn KeyError (lit "slice(None, " ++ str_of_int n ++ lit ", None)"))
      else Raise (Exn TypeError (lit "unhashable type: 'slice'"))
  | _ =>
      Raise (Exn TypeError
               (lit "'" ++ type_name v ++ lit "' object is not subscriptable"))
  end.

(** The elements a [for] loop draws from [v]. *)
Definition py_iter (v : pyval) : res (list pyval) :=
  match v with
  | PList l => Ok l
  | PStr s => Ok (map (fun c => PStr [c]) s)
  | PDict d => Ok (map (fun kv => PStr (fst kv)) d)
  | _ =>
      Raise (Exn TypeError
               (lit "'" ++ type_name v ++ lit "' object is not iterable"))
  end.

(** [float(z)] of an integer: the nearest binary64, an error past its range. *)
Definition float_of_int (z : Z) : res float :=
  let f := SF2Prim (binary_normalize prec emax z 0 false) in
  if PrimFloat.is_infinity f
  then Raise (Exn OverflowError (lit "int too large to convert to float"))
  else Ok f.

(** The float a number takes part in float arithmetic as. *)
Definition as_float (op : pystr) (v : pyval) : res float :=
  match v with
  | PFloat f => Ok f
  | PInt z => float_of_int z
  | PBool b => Ok (if b then 1%float else 0%float)
  | _ =>
      Raise (Exn TypeError
               (lit "unsupported operand type(s) for " ++ op ++ lit ": '"
                ++ type_name v ++ lit "' and 'float'"))
  end.

(** [v / y] and [v - y] for a float [y] that is not zero. *)
Definition py_truediv (v : pyval) (y : float) : res float :=
  res_bind (as_float (lit "/") v) (fun x => Ok (x / y)%float).

Definition py_sub (v : pyval) (y : float) : res float :=
  res_bind (as_float (lit "-") v) (fun x => Ok (x - y)%float).

(** [v == 'HIGH'] and the like: equal to a string only when a string. *)
Definition py_eq_str (v : pyval) (s : pystr) : bool :=
  match v with
  | PStr t => str_eqb t s
  | _ => false
  end.

(** [bool(key)] of the configured credential: [None] and [''] are false. *)
Definition truthy_key (key : option pystr) : bool :=
  match key with
  | Some (_ :: _) => true
  | _ => false
  end.

(** ** The services outside the program *)

(** One request to a service, as the log of a run records it. The feed
    lookup stands for the whole step: quoting the query into the URL and the
    GET that follows. *)
Inductive call : Type :=
| CallMarkets
| CallNewsAPI (query : pystr)
| CallGoogleNews (query : pystr)
| CallClaude (prompt : pystr).

(** An [item] element of the feed: the text of its [title] and [link]
    children, where it has them. *)
Record rss_item : Type := { item_title : option pystr; item_link : option pystr }.

(** An HTTP response: its status, what [response.json()] gives, and what
    [BeautifulSoup(response.content, 'xml').find_all('item')] gives. *)
Record response : Type := {
  status_code : Z;
  json : res pyval;
  find_all_item : res (list rss_item)
}.

(** A block of the model's answer: a text block, or a block of another
    class (named), which has no [text]. *)
Inductive content_block : Type :=
| TextBlock (text : pystr)
| OtherBlock (class : pystr).

Record message : Type := { content : list content_block }.

(** What the program runs against. What each service answers, given the
    calls made before; a transport failure is an exception. And the
    interpreter: whether a slice can be hashed (Python 3.12 and later). *)
Record world : Type := {
  hashable_slices : bool;
  kalshi_markets : list call -> res response;
  newsapi_everything : list call -> pystr -> res response;
  google_news_rss : list call -> pystr -> res response;
  messages_create : list call -> pystr -> res message
}.

(** A computation: it extends the log of calls and returns or raises. *)
Definition M (A : Type) : Type := list call -> list call * res A.

Definition ret {A : Type} (a : A) : M A := fun log => (log, Ok a).

Definition bind {A B : Type} (m : M A) (k : A -> M B) : M B :=
  fun log =>
    match m log with
    | (log', Ok a) => k a log'
    | (log', Raise e) => (log', Raise e)
    end.

Definition lift {A : Type} (r : res A) : M A := fun log => (log, r).

(** [try: body except Exception as e: handler e] *)
Definition try_except {A : Type} (body : M A) (handler : exn -> M A) : M A :=
  fun log =>
    match body log with
    | (log', Raise e) => handler e log'
    | out => out
    end.

(** A request: logged, and answered from the history before it. *)
Definition perform {A : Type} (c : call) (answer : list call -> res A) : M A :=
  fun log => (log ++ [c], answer log).

Declare Scope py_scope.
Delimit Scope py_scope with py.
Notation "x <- c ;; k" := (bind c (fun x => k))
  (at level 61, c at next level, right associativity) : py_scope.
Notation "x <~ r ;; k" := (res_bind r (fun x => k))
  (at level 61, r at next level, right associativity) : py_scope.

(** ** Records the pipeline builds *)

(** A news source: the dict [search_news] appends, by its four keys. *)
Record news_source : Type := {
  ns_title : pyval;
  ns_description : pyval;
  ns_url : pyval;
  ns_source : pyval
}.

Inductive recommendation : Type :=
| STRONG_BUY | BUY | STRONG_SELL | SELL | HOLD.

(** The dict [run_analysis] appends for one market, by its keys. *)
Record analysis_result : Type := {
  ar_ticker : pyval;
  ar_title : pyval;
  ar_market_price : float;
  ar_estimated_probability : pyval;
  ar_edge : float;
  ar_edge_percent : pystr;
  ar_confidence : pyval;
  ar_recommendation : recommendation;
  ar_reasoning : pyval;
  ar_sources_count : nat
}.

(** ** Edge and recommendation (run_analysis, the if/elif chain) *)

Definition recommend (confidence : pyval) (edge : float) : recommendation :=
  if py_eq_str confidence (lit "HIGH") && (0.10 <? edge)%float then STRONG_BUY
  else if py_eq_str confidence (lit "HIGH") && (0.05 <? edge)%float then BUY
  else if py_eq_str confidence (lit "HIGH") && (edge <? -0.10)%float then STRONG_SELL
  else if (0.15 <? edge)%float then BUY
  else if (edge <? -0.15)%float then SELL
  else HOLD.

(** The rule table as the specification words it: guards in order, the
    first that holds gives the label, none gives HOLD. *)
Definition rule : Type := (pyval -> float -> bool) * recommendation.

Definition rule_table : list rule :=
  [ (fun c e => py_eq_str c (lit "HIGH") && (0.10 <? e)%float, STRONG_BUY);
    (fun c e => py_eq_str c (lit "HIGH") && (0.05 <? e)%float, BUY);
    (fun c e => py_eq_str c (lit "HIGH") && (e <? -0.10)%float, STRONG_SELL);
    (fun c e => (0.15 <? e)%float, BUY);
    (fun c e => (e <? -0.15)%float, SELL) ].

Fixpoint first_match (rules : list rule) (c : pyval) (e : float) : recommendation :=
  match rules with
  | [] => HOLD
  | (guard, label) :: rest => if guard c e then label else first_match rest c e
  end.

(** The round-half-even quotient of [n] by a positive [d]. *)
Definition div_half_even (n d : Z) : Z :=
  let q := n / d in
  let r := n mod d in
  if (d <? 2 * r) || ((d =? 2 * r) && Z.odd q) then q + 1 else q.

(** [f"{x:+.1f}"]: sign, integer part, one decimal, from the exact value. *)
Definition format_plus_1f (x : float) : pystr :=
  let digits (s : bool) (tenths : Z) :=
    lit (if s then "-" else "+") ++ str_of_int (tenths / 10) ++ lit "."
    ++ str_of_int (tenths mod 10) in
  match Prim2SF x with
  | S754_nan => lit "+nan"
  | S754_infinity s => lit (if s then "-inf" else "+inf")
  | S754_zero s => digits s 0
  | S754_finite s m e =>
      digits s (if e <? 0 then div_half_even (Z.pos m * 10) (2 ^ (- e))
                else Z.pos m * 10 * 2 ^ e)
  end.

(** ** KalshiAnalyzer *)

Section Analyzer.

(** [json.loads] and the rendering of floats and containers by [str()]
    belong to the interpreter: any behaviour of theirs is allowed for. *)
Variable json_loads : pystr -> res pyval.
Variable repr_value : pyval -> pystr.

(** The services, and [self.news_api_key]. *)
Variable W : world.
Variable news_api_key : option pystr.

Open Scope py_scope.

(** [str(v)], as an f-string renders a value. *)
Definition py_str (v : pyval) : pystr :=
  match v with
  | PStr s => s
  | PInt z => str_of_int z
  | PBool b => lit (if b then "True" else "False")
  | PNone => lit "None"
  | _ => repr_value v
  end.

(** *** get_active_markets *)

Definition get_active_markets : M pyval :=
  try_except
    (response <- perform CallMarkets (kalshi_markets W) ;;
     if status_code response =? 200
     then lift (j <~ json response ;; py_get j (lit "markets") (PList []))
     else ret (PList []))
    (fun e => ret (PList [])).

(** *** search_news *)

(** The dict appended for one article of the primary provider. *)
Definition article_source (article : pyval) : res news_source :=
  title <~ py_get article (lit "title") (PStr []) ;;
  description <~ py_get article (lit "description") (PStr []) ;;
  url <~ py_get article (lit "url") (PStr []) ;;
  source <~ py_get article (lit "source") (PDict []) ;;
  name <~ py_get source (lit "name") (PStr (lit "Unknown")) ;;
  Ok {| ns_title := title; ns_description := description;
        ns_url := url; ns_source := name |}.

(** The loop over the articles: [sources] keeps what was appended before
    an article raises. *)
Fixpoint append_articles (articles : list pyval) (sources : list news_source)
  : list news_source * res unit :=
  match articles with
  | [] => (sources, Ok tt)
  | article :: rest =>
      match article_source article with
      | Ok s => append_articles rest (sources ++ [s])
      | Raise e => (sources, Raise e)
      end
  end.

(** The body of the first [try], from the provider's answer: the list
    [sources] after it, and how it ended. *)
Definition primary_try (answer : res response) (sources : list news_source)
  : list news_source * res unit :=
  match answer with
  | Raise e => (sources, Raise e)
  | Ok response =>
      if status_code response =? 200 then
        match (j <~ json response ;;
               articles <~ py_get j (lit "articles") (PList []) ;;
               first5 <~ py_slice_to (hashable_slices W) articles 5 ;;
               py_iter first5) with
        | Ok articles => append_articles articles sources
        | Raise e => (sources, Raise e)
        end
      else (sources, Ok tt)
  end.

(** [if self.news_api_key: try: ... except Exception: print(...)] *)
Definition primary_step (query : pystr) (sources : list news_source)
  : M (list news_source) :=
  if truthy_key news_api_key then
    fun log =>
      (log ++ [CallNewsAPI query],
       Ok (fst (primary_try (newsapi_everything W log query) sources)))
  else ret sources.

(** The dict appended for one item of the feed. *)
Definition item_source (item : rss_item) : news_source :=
  {| ns_title := PStr (match item_title item with Some t => t | None => [] end);
     ns_url := PStr (match item_link item with Some t => t | None => [] end);
     ns_source := PStr (lit "Google News");
     ns_description := PStr [] |}.

Definition fallback_try (answer : res response) (sources : list news_source)
  : list news_source * res unit :=
  match answer with
  | Raise e => (sources, Raise e)
  | Ok response =>
      if status_code response =? 200 then
        match find_all_item response with
        | Ok items => (sources ++ map item_source (firstn 5 items), Ok tt)
        | Raise e => (sources, Raise e)
        end
      else (sources, Ok tt)
  end.

(** [if not sources: try: ... except Exception: print(...)] *)
Definition fallback_step (query : pystr) (sources : list news_source)
  : M (list news_source) :=
  match sources with
  | [] =>
      fun log =>
        (log ++ [CallGoogleNews query],
         Ok (fst (fallback_try (google_news_rss W log query) sources)))
  | _ :: _ => ret sources
  end.

Definition search_news (query : pystr) : M (list news_source) :=
  sources <- primary_step query [] ;;
  sources <- fallback_step query sources ;;
  ret sources.

(** *** analyze_event *)

(** The numbered source lines of the prompt, from index [i]. *)
Fixpoint source_lines (i : Z) (sources : list news_source) : pystr :=
  match sources with
  | [] => []
  | source :: rest =>
      str_of_int i ++ lit ". [" ++ py_str (ns_source source) ++ lit "] "
      ++ py_str (ns_title source) ++ nl ++ source_lines (i + 1) rest
  end.

Definition build_context (title ticker yes_bid : pyval)
    (sources : list news_source) : pystr :=
  lit "Event: " ++ py_str title ++ nl
  ++ lit "Ticker: " ++ py_str ticker ++ nl
  ++ lit "Current Market Price: " ++ py_str yes_bid ++ lit "%" ++ nl
  ++ nl
  ++ lit "Recent Sources:" ++ nl
  ++ source_lines 1 (firstn 5 sources).

Definition build_prompt (context : pystr) : pystr :=
  context ++ nl ++ nl
  ++ lit "Analyze this prediction market and provide your estimate in JSON:" ++ nl
  ++ lit "{" ++ nl
  ++ lit "    " ++ dq ++ lit "estimated_probability" ++ dq ++ lit ": <0-1>," ++ nl
  ++ lit "    " ++ dq ++ lit "confidence" ++ dq ++ lit ": " ++ dq
  ++ lit "LOW|MEDIUM|HIGH" ++ dq ++ lit "," ++ nl
  ++ lit "    " ++ dq ++ lit "reasoning" ++ dq ++ lit ": " ++ dq
  ++ lit "<brief explanation>" ++ dq ++ nl
  ++ lit "}" ++ nl ++ nl
  ++ lit "RESPOND ONLY WITH VALID JSON.".

(** [message.content[0].text] *)
Definition first_text (m : message) : res pystr :=
  match content m with
  | [] => Raise (Exn IndexError (lit "list index out of range"))
  | TextBlock text :: _ => Ok text
  | OtherBlock class :: _ =>
      Raise (Exn AttributeError
               (lit "'" ++ class ++ lit "' object has no attribute 'text'"))
  end.

(** The two lines that clean the response text of code fences. *)
Definition clean_response (text : pystr) : pystr :=
  let response_text := strip text in
  strip (replace (lit "```") []
           (replace (lit "```json" ++ nl) [] response_text)).

Definition parse_response (text : pystr) : res pyval :=
  json_loads (clean_response text).

(** The dict of the [except] branch. *)
Definition fallback_estimate (e : exn) : pyval :=
  PDict [ (lit "estimated_probability", PFloat 0.5);
          (lit "confidence", PStr (lit "LOW"));
          (lit "reasoning", PStr (lit "Error: " ++ exn_str e)) ].

Definition analyze_event (event : pyval) (sources : list news_source) : M pyval :=
  title <- lift (py_get event (lit "title") (PStr (lit "N/A"))) ;;
  ticker <- lift (py_get event (lit "ticker") (PStr (lit "N/A"))) ;;
  yes_bid <- lift (py_get event (lit "yes_bid") (PInt 50)) ;;
  let prompt := build_prompt (build_context title ticker yes_bid sources) in
  try_except
    (message <- perform (CallClaude prompt) (fun log => messages_create W log prompt) ;;
     text <- lift (first_text message) ;;
     lift (parse_response text))
    (fun e => ret (fallback_estimate e)).

(** The prompt [analyze_event] sends for a market that is the dict [d]. *)
Definition event_prompt (d : list (pystr * pyval)) (sources : list news_source)
  : pystr :=
  build_prompt
    (build_context (dict_get d (lit "title") (PStr (lit "N/A")))
       (dict_get d (lit "ticker") (PStr (lit "N/A")))
       (dict_get d (lit "yes_bid") (PInt 50)) sources).

(** What the [try] of [analyze_event] makes of the model's answer. *)
Definition estimate_of (answer : res message) : res pyval :=
  message <~ answer ;;
  text <~ first_text message ;;
  parse_response text.

(** *** run_analysis *)

(** The body of the loop, for one market. *)
Definition analyze_market (market : pyval) : M analysis_result :=
  shown <- lift (py_get market (lit "title") (PStr [])) ;;
  clipped <- lift (py_slice_to (hashable_slices W) shown 50) ;;
  _ <- lift (py_print (lit "Analyzing: " ++ py_str clipped)) ;;
  title <- lift (py_get market (lit "title") (PStr [])) ;;
  subtitle <- lift (py_get market (lit "subtitle") (PStr [])) ;;
  let query := py_str title ++ lit " " ++ py_str subtitle in
  sources <- search_news query ;;
  analysis <- analyze_event market sources ;;
  yes_bid <- lift (py_get market (lit "yes_bid") (PInt 50)) ;;
  market_price <- lift (py_truediv yes_bid 100) ;;
  estimated_prob <- lift (py_get analysis (lit "estimated_probability") (PFloat 0.5)) ;;
  edge <- lift (py_sub estimated_prob market_price) ;;
  confidence <- lift (py_get analysis (lit "confidence") (PStr (lit "LOW"))) ;;
  let rec := recommend confidence edge in
  ticker <- lift (py_get market (lit "ticker") (PStr (lit "N/A"))) ;;
  title' <- lift (py_get market (lit "title") (PStr (lit "N/A"))) ;;
  reasoning <- lift (py_get analysis (lit "reasoning") (PStr [])) ;;
  ret {| ar_ticker := ticker;
         ar_title := title';
         ar_market_price := market_price;
         ar_estimated_probability := estimated_prob;
         ar_edge := edge;
         ar_edge_percent := format_plus_1f (edge * 100)%float ++ lit "%";
         ar_confidence := confidence;
         ar_recommendation := rec;
         ar_reasoning := reasoning;
         ar_sources_count := List.length sources |}.

(** The loop: a market that raises ends the run, with [results] lost. *)
Fixpoint analyze_markets (markets : list pyval) (results : list analysis_result)
  : M (list analysis_result) :=
  match markets with
  | [] => ret results
  | market :: rest =>
      r <- analyze_market market ;;
      analyze_markets rest (results ++ [r])
  end.

Definition run_analysis (max_events : Z) : M (list analysis_result) :=
  fetched <- get_active_markets ;;
  sliced <- lift (py_slice_to (hashable_slices W) fetched max_events) ;;
  markets <- lift (py_iter sliced) ;;
  analyze_markets markets [].

End Analyzer.

(** ** A reader for JSON text

    The grammar [json.loads] accepts, for running the pipeline on concrete
    responses: objects, arrays, strings with their escapes, integers of any
    length, decimal numbers rounded to the nearest binary64, [true], [false],
    [null], [NaN], [Infinity] and [-Infinity]. An error is a [ValueError]
    whose text gives what was expected and where. It is used on the short
    texts of the concrete runs only; the limits of CPython's reader (the
    digits of an integer, the depth of nesting) are not part of it, and the
    general statements take [json.loads] as a parameter. *)

Module Json.

(** A result with the input left, or an error and how much input was left
    where it arose. *)
Inductive parsed (A : Type) : Type :=
| Got (a : A) (rest : pystr)
| Bad (msg : pystr) (rest_len : nat).
Arguments Got {A} a rest.
Arguments Bad {A} msg rest_len.

Definition is_ws (c : N) : bool :=
  ((c =? 32) || (c =? 9) || (c =? 10) || (c =? 13))%N.

Fixpoint skip_ws (s : pystr) : pystr :=
  match s with
  | [] => []
  | c :: s' => if is_ws c then skip_ws s' else s
  end.

Definition is_digit (c : N) : bool := ((48 <=? c) && (c <=? 57))%N.

Definition hex_digit (c : N) : option N :=
  if is_digit c then Some (c - 48)%N
  else if ((97 <=? c) && (c <=? 102))%N then Some (c - 87)%N
  else if ((65 <=? c) && (c <=? 70))%N then Some (c - 55)%N
  else None.

Definition hex4 (a b c d : N) : option N :=
  match hex_digit a, hex_digit b, hex_digit c, hex_digit d with
  | Some x, Some y, Some z, Some w => Some (((x * 16 + y) * 16 + z) * 16 + w)%N
  | _, _, _, _ => None
  end.

(** The character a one-letter escape stands for. *)
Definition unescape (c : N) : option N :=
  if (c =? 34)%N then Some 34%N          (* quote *)
  else if (c =? 92)%N then Some 92%N     (* backslash *)
  else if (c =? 47)%N then Some 47%N     (* slash *)
  else if (c =? 98)%N then Some 8%N      (* b *)
  else if (c =? 102)%N then Some 12%N    (* f *)
  else if (c =? 110)%N then Some 10%N    (* n *)
  else if (c =? 114)%N then Some 13%N    (* r *)
  else if (c =? 116)%N then Some 9%N     (* t *)
  else None.

Definition is_high_surrogate (u : N) : bool := ((55296 <=? u) && (u <=? 56319))%N.
Definition is_low_surrogate (u : N) : bool := ((56320 <=? u) && (u <=? 57343))%N.

(** The low surrogate escape at the head of [s], if there is one. *)
Definition low_escape (s : pystr) : option (N * pystr) :=
  match s with
  | b :: u :: w :: x :: y :: z :: rest =>
      if ((b =? 92) && (u =? 117))%N then
        match hex4 w x y z with
        | Some lo => if is_low_surrogate lo then Some (lo, rest) else None
        | None => None
        end
      else None
  | _ => None
  end.

(** The inside of a string, after its opening quote; [start] is the input
    left at that quote. *)
Fixpoint scan_string (start : nat) (s : pystr) (acc : pystr) : parsed pystr :=
  match s with
  | [] => Bad (lit "Unterminated string starting at") start
  | c :: s1 =>
      if (c =? 34)%N then Got (rev acc) s1
      else if (c =? 92)%N then
        match s1 with
        | [] => Bad (lit "Unterminated string starting at") start
        | e :: s2 =>
            if (e =? 117)%N then
              match s2 with
              | w :: x :: y :: z :: s3 =>
                  match hex4 w x y z with
                  | None => Bad (lit "Invalid \uXXXX escape") (List.length s1)
                  | Some hi =>
                      match s3 with
                      | b :: u :: w' :: x' :: y' :: z' :: s4 =>
                          match (if is_high_surrogate hi then low_escape s3 else None) with
                          | Some (lo, _) =>
                              scan_string start s4
                                ((65536 + (hi - 55296) * 1024 + (lo - 56320))%N :: acc)
                          | None => scan_string start s3 (hi :: acc)
                          end
                      | _ => scan_string start s3 (hi :: acc)
                      end
                  end
              | _ => Bad (lit "Invalid \uXXXX escape") (List.length s1)
              end
            else
              match unescape e with
              | Some ch => scan_string start s2 (ch :: acc)
              | None => Bad (lit "Invalid \escape") (List.length s)
              end
        end
      else if (c <? 32)%N then Bad (lit "Invalid control character at") (List.length s)
      else scan_string start s1 (c :: acc)
  end.

Fixpoint take_digits (s : pystr) : pystr * pystr :=
  match s with
  | [] => ([], [])
  | c :: s' =>
      if is_digit c then let (ds, rest) := take_digits s' in (c :: ds, rest)
      else ([], s)
  end.

Definition digits_value (ds : pystr) : Z :=
  fold_left (fun a d => a * 10 + (Z.of_N d - 48)) ds 0.

(** The binary64 nearest to [mant * 10 ^ e10], with the given sign. *)
Definition float_of_decimal (neg : bool) (mant : Z) (e10 : Z) : float :=
  match mant with
  | Zpos m =>
      if 0 <=? e10
      then SF2Prim (binary_normalize prec emax
                      ((if neg then -1 else 1) * (Z.pos m * 10 ^ e10)) 0 false)
      else SF2Prim (SFdiv prec emax (S754_finite neg m 0)
                      (S754_finite false (Z.to_pos (10 ^ (- e10))) 0))
  | _ => SF2Prim (S754_zero neg)
  end.

(** The integer part of a number: [0], or digits that start with none. *)
Definition int_part (s : pystr) : option (pystr * pystr) :=
  match s with
  | c :: s' =>
      if (c =? 48)%N then Some ([c], s')
      else if is_digit c then Some (take_digits s)
      else None
  | [] => None
  end.

(** [.digits], if the input goes on so. *)
Definition frac_part (s : pystr) : option (pystr * pystr) :=
  match s with
  | p :: d :: _ =>
      if ((p =? 46)%N && is_digit d) then Some (take_digits (tl s)) else None
  | _ => None
  end.

(** [e], a sign and digits, if the input goes on so: the exponent. *)
Definition exp_part (s : pystr) : option (Z * pystr) :=
  match s with
  | e :: s1 =>
      if ((e =? 101) || (e =? 69))%N then
        let '(neg, s2) :=
          match s1 with
          | g :: s2 =>
              if (g =? 45)%N then (true, s2)
              else if (g =? 43)%N then (false, s2)
              else (false, s1)
          | [] => (false, s1)
          end in
        match take_digits s2 with
        | ([], _) => None
        | (ds, rest) => Some ((if neg then -1 else 1) * digits_value ds, rest)
        end
      else None
  | [] => None
  end.

(** A number at the head of [s]: an int, or a float when it has a
    fraction or an exponent. *)
Definition scan_number (s : pystr) : option (pyval * pystr) :=
  let '(neg, s1) :=
    match s with
    | c :: s' => if (c =? 45)%N then (true, s') else (false, s)
    | [] => (false, s)
    end in
  match int_part s1 with
  | None => None
  | Some (ids, s2) =>
      let '(fds, s3) :=
        match frac_part s2 with
        | Some (fds, s3) => (fds, s3)
        | None => ([], s2)
        end in
      match fds, exp_part s3 with
      | [], None =>
          Some (PInt ((if neg then -1 else 1) * digits_value ids), s3)
      | _, None =>
          Some (PFloat (float_of_decimal neg (digits_value (ids ++ fds))
                          (- Z.of_nat (List.length fds))), s3)
      | _, Some (e, s4) =>
          Some (PFloat (float_of_decimal neg (digits_value (ids ++ fds))
                          (e - Z.of_nat (List.length fds))), s4)
      end
  end.

(** Assignment to a key of a dict: in place when the key is there. *)
Fixpoint dict_set (d : list (pystr * pyval)) (k : pystr) (v : pyval)
  : list (pystr * pyval) :=
  match d with
  | [] => [(k, v)]
  | (k', v') :: d' =>
      if str_eqb k' k then (k', v) :: d' else (k', v') :: dict_set d' k v
  end.

Definition expecting_value : pystr := lit "Expecting value".
Definition expecting_comma : pystr := lit "Expecting ',' delimiter".
Definition expecting_colon : pystr := lit "Expecting ':' delimiter".
Definition expecting_name : pystr :=
  lit "Expecting property name enclosed in double quotes".

(** One value at the head of [s]; the items of an array after a value is
    due; the items of an object after a key's quote is due. *)
Fixpoint scan_once (fuel : nat) (s : pystr) : parsed pyval :=
  match fuel with
  | O => Bad expecting_value (List.length s)
  | S fuel' =>
      match s with
      | [] => Bad expecting_value 0
      | c :: s1 =>
          if (c =? 34)%N then
            match scan_string (List.length s) s1 [] with
            | Got str rest => Got (PStr str) rest
            | Bad msg rest_len => Bad msg rest_len
            end
          else if (c =? 123)%N then
            match skip_ws s1 with
            | c' :: s2 =>
                if (c' =? 125)%N then Got (PDict []) s2
                else scan_items fuel' (skip_ws s1) []
            | [] => Bad expecting_name 0
            end
          else if (c =? 91)%N then
            match skip_ws s1 with
            | c' :: s2 =>
                if (c' =? 93)%N then Got (PList []) s2
                else scan_elements fuel' (skip_ws s1) []
            | [] => Bad expecting_value 0
            end
          else if starts_with (lit "null") s then Got PNone (skipn 4 s)
          else if starts_with (lit "true") s then Got (PBool true) (skipn 4 s)
          else if starts_with (lit "false") s then Got (PBool false) (skipn 5 s)
          else if starts_with (lit "NaN") s then Got (PFloat nan) (skipn 3 s)
          else if starts_with (lit "Infinity") s then Got (PFloat infinity) (skipn 8 s)
          else if starts_with (lit "-Infinity") s
               then Got (PFloat neg_infinity) (skipn 9 s)
          else
            match scan_number s with
            | Some (v, rest) => Got v rest
            | None => Bad expecting_value (List.length s)
            end
      end
  end
with scan_elements (fuel : nat) (s : pystr) (acc : list pyval) : parsed pyval :=
  match fuel with
  | O => Bad expecting_value (List.length s)
  | S fuel' =>
      match scan_once fuel' s with
      | Bad msg rest_len => Bad msg rest_len
      | Got v rest =>
          match skip_ws rest with
          | [] => Bad expecting_comma 0
          | c :: s1 =>
              if (c =? 93)%N then Got (PList (rev (v :: acc))) s1
              else if (c =? 44)%N then scan_elements fuel' (skip_ws s1) (v :: acc)
              else Bad expecting_comma (S (List.length s1))
          end
      end
  end
with scan_items (fuel : nat) (s : pystr) (acc : list (pystr * pyval)) : parsed pyval :=
  match fuel with
  | O => Bad expecting_value (List.length s)
  | S fuel' =>
      match s with
      | [] => Bad expecting_name 0
      | q :: s1 =>
          if negb (q =? 34)%N then Bad expecting_name (List.length s)
          else
            match scan_string (List.length s) s1 [] with
            | Bad msg rest_len => Bad msg rest_len
            | Got key rest =>
                match skip_ws rest with
                | [] => Bad expecting_colon 0
                | c :: s2 =>
                    if negb (c =? 58)%N then Bad expecting_colon (S (List.length s2))
                    else
                      match scan_once fuel' (skip_ws s2) with
                      | Bad msg rest_len => Bad msg rest_len
                      | Got v rest' =>
                          match skip_ws rest' with
                          | [] => Bad expecting_comma 0
                          | c' :: s3 =>
                              if (c' =? 125)%N then Got (PDict (dict_set acc key v)) s3
                              else if (c' =? 44)%N
                              then scan_items fuel' (skip_ws s3) (dict_set acc key v)
                              else Bad expecting_comma (S (List.length s3))
                          end
                      end
                end
            end
      end
  end.

(** The characters of a reversed prefix that follow its last line feed. *)
Fixpoint lstrip_line (r : pystr) : pystr :=
  match r with
  | [] => []
  | c :: r' => if (c =? 10)%N then [] else c :: lstrip_line r'
  end.

(** [msg: line L column C (char P)] for position [pos] of [doc]. *)
Definition error_text (doc : pystr) (msg : pystr) (pos : nat) : pystr :=
  let before := firstn pos doc in
  let lineno := S (List.length (filter (N.eqb 10) before)) in
  let colno := S (List.length (lstrip_line (rev before))) in
  msg ++ lit ": line " ++ str_of_int (Z.of_nat lineno)
  ++ lit " column " ++ str_of_int (Z.of_nat colno)
  ++ lit " (char " ++ str_of_int (Z.of_nat pos) ++ lit ")".

Definition loads (s : pystr) : res pyval :=
  if starts_with [65279%N] s then
    Raise (Exn ValueError
             (error_text s (lit "Unexpected UTF-8 BOM (decode using utf-8-sig)") 0))
  else
    match scan_once (S (List.length s)) (skip_ws s) with
    | Bad msg rest_len =>
        Raise (Exn ValueError (error_text s msg (List.length s - rest_len)%nat))
    | Got v rest =>
        match skip_ws rest with
        | [] => Ok v
        | (_ :: _) as extra =>
            Raise (Exn ValueError
                     (error_text s (lit "Extra data")
                        (List.length s - List.length extra)%nat))
        end
    end.

End Json.

(** ** Concrete runs

    Markets, feeds and model replies to run the pipeline on. *)

(** A JSON text written with ['] for its double quotes. *)
Definition quoted (s : string) : pystr :=
  map (fun c => if (c =? 39)%N then 34%N else c) (lit s).
Arguments quoted s%_string.

(** No float or container is rendered in the runs below. *)
Definition no_repr (v : pyval) : pystr := [].

Definition ok_json (v : pyval) : res response :=
  Ok {| status_code := 200; json := Ok v;
        find_all_item := Raise (Exn OtherError (lit "not a feed")) |}.

Definition ok_feed (items : list rss_item) : res response :=
  Ok {| status_code := 200;
        json := Raise (Exn ValueError (lit "Expecting value: line 1 column 1 (char 0)"));
        find_all_item := Ok items |}.

Definition status_only (code : Z) : res response :=
  Ok {| status_code := code;
        json := Raise (Exn ValueError (lit "Expecting value: line 1 column 1 (char 0)"));
        find_all_item := Ok [] |}.

Definition connection_error : exn :=
  Exn RequestException (lit "Connection refused").

Definition market (ticker title subtitle : string) (yes_bid : Z) : pyval :=
  PDict [ (lit "ticker", PStr (lit ticker)); (lit "title", PStr (lit title));
          (lit "subtitle", PStr (lit subtitle)); (lit "yes_bid", PInt yes_bid) ].

Definition feed_item (title link : string) : rss_item :=
  {| item_title := Some (lit title); item_link := Some (lit link) |}.

Definition is_claude (c : call) : bool :=
  match c with CallClaude _ => true | _ => false end.

(** The model's replies, one per request in order; none is left after them. *)
Definition replies (texts : list pystr) (log : list call) (prompt : pystr)
  : res message :=
  match nth_error texts (List.length (filter is_claude log)) with
  | Some text => Ok {| content := [TextBlock text] |}
  | None => Raise (Exn APIError (lit "Connection error."))
  end.

(** Two markets at 40 and 60 percent, three feed items for each, no primary
    news credential, and the replies given. *)
Definition two_markets (texts : list pystr) : world :=
  {| hashable_slices := false;
     kalshi_markets := fun _ =>
       ok_json (PDict [ (lit "markets",
                          PList [ market "MKT-A" "Event A" "first" 40;
                                  market "MKT-B" "Event B" "second" 60 ]) ]);
     newsapi_everything := fun _ _ => Raise connection_error;
     google_news_rss := fun _ _ =>
       ok_feed [ feed_item "Headline 1" "https://example.org/1";
                 feed_item "Headline 2" "https://example.org/2";
                 feed_item "Headline 3" "https://example.org/3" ];
     messages_create := replies texts |}.

Definition reply_high : pystr :=
  quoted "{'estimated_probability': 0.6, 'confidence': 'HIGH', 'reasoning': 'likely'}".
Definition reply_low : pystr :=
  quoted "{'estimated_probability': 0.5, 'confidence': 'LOW', 'reasoning': 'unclear'}".
Definition fenced (text : pystr) : pystr :=
  lit "```json" ++ nl ++ text ++ nl ++ lit "```".

(** The run of the pipeline on the two markets, the first reply fenced. *)
Definition demo_world : world := two_markets [fenced reply_high; reply_low].

Definition demo_run : list call * res (list analysis_result) :=
  run_analysis Json.loads no_repr demo_world None 10 [].

Definition demo_results : list analysis_result :=
  match snd demo_run with
  | Ok results => results
  | Raise _ => []
  end.

(** A world whose primary news provider has one article for every query. *)
Definition primary_world : world :=
  {| hashable_slices := false;
     kalshi_markets := fun _ => Raise connection_error;
     newsapi_everything := fun _ _ =>
       ok_json (PDict [ (lit "status", PStr (lit "ok"));
                        (lit "articles",
                          PList [ PDict [ (lit "source", PDict [ (lit "id", PNone);
                                                                 (lit "name", PStr (lit "Wire")) ]);
                                          (lit "title", PStr (lit "Primary headline"));
                                          (lit "description", PStr (lit "Summary"));
                                          (lit "url", PStr (lit "https://example.org/p")) ] ]) ]);
     google_news_rss := fun _ _ => ok_feed [ feed_item "Unused" "https://example.org/u" ];
     messages_create := replies [] |}.

(** A world whose market API answers 503. *)
Definition overloaded_world : world :=
  {| hashable_slices := false;
     kalshi_markets := fun _ => status_only 503;
     newsapi_everything := fun _ _ => Raise connection_error;
     google_news_rss := fun _ _ => Raise connection_error;
     messages_create := replies [] |}.

(** A world whose market API cannot be reached. *)
Definition unreachable_world : world :=
  {| hashable_slices := false;
     kalshi_markets := fun _ => Raise connection_error;
     newsapi_everything := fun _ _ => Raise connection_error;
     google_news_rss := fun _ _ => Raise connection_error;
     messages_create := replies [] |}.

(** One market whose object has no [yes_bid], and a HIGH estimate of 0.6. *)
Definition no_bid_market : list (pystr * pyval) :=
  [ (lit "ticker", PStr (lit "MKT-C")); (lit "title", PStr (lit "Event C"));
    (lit "subtitle", PStr (lit "third")) ].

Definition no_bid_world : world :=
  {| hashable_slices := false;
     kalshi_markets := fun _ =>
       ok_json (PDict [ (lit "markets", PList [ PDict no_bid_market ]) ]);
     newsapi_everything := fun _ _ => Raise connection_error;
     google_news_rss := fun _ _ => ok_feed [];
     messages_create := replies [reply_high] |}.

Definition no_bid_run : list call * res (list analysis_result) :=
  run_analysis Json.loads no_repr no_bid_world None 10 [].

Definition no_bid_results : list analysis_result :=
  match snd no_bid_run with
  | Ok results => results
  | Raise _ => []
  end.

Definition string_probability_text : pystr :=
  quoted "{'estimated_probability': '0.6', 'confidence': 'HIGH', 'reasoning': 'likely'}".

Definition market_a : list (pystr * pyval) :=
  [ (lit "ticker", PStr (lit "MKT-A")); (lit "title", PStr (lit "Event A"));
    (lit "subtitle", PStr (lit "first")); (lit "yes_bid", PInt 40) ].

(** ** Notions the properties are stated with *)

(** The news query of a market that is the dict [d]. *)
Definition market_query (rv : pyval -> pystr) (d : list (pystr * pyval)) : pystr :=
  py_str rv (dict_get d (lit "title") (PStr [])) ++ lit " "
  ++ py_str rv (dict_get d (lit "subtitle") (PStr [])).

(** [l'] is [l] with further calls after it. *)
Definition extends (l l' : list call) : Prop := exists calls, l' = l ++ calls.

(** A result [r] was built from the market [m] in a step of the run from
    [log] to [log']. *)
Definition built_from (jl : pystr -> res pyval) (rv : pyval -> pystr)
    (W : world) (key : option pystr) (log log' : list call)
    (m : pyval) (r : analysis_result) : Prop :=
  exists l l',
    analyze_market jl rv W key m l = (l', Ok r)
    /\ extends log l /\ extends l' log'.






(** [needle] occurs in [hay]. *)
Definition contains (needle hay : pystr) : Prop :=
  exists before after, hay = before ++ needle ++ after.

(** What C10 says of a market and its result, in a run that ends with the
    log [log']. *)
Definition priced_at_half (rv : pyval -> pystr) (log' : list call)
    (m : pyval) (r : analysis_result) : Prop :=
  forall d, m = PDict d -> dict_lookup d (lit "yes_bid") = None ->
    ar_market_price r = 0.5%float
    /\ py_sub (ar_estimated_probability r) 0.5 = Ok (ar_edge r)
    /\ exists sources,
         In (CallClaude (event_prompt rv d sources)) log'
         /\ contains (lit "Current Market Price: 50%") (event_prompt rv d sources).

(** ** Further notions *)

(** An exception of a method or an operator applied to a value of the
    wrong type, or of an integer too large for a float. *)
Definition operand_error (e : exn) : Prop :=
  exn_class e = AttributeError \/ exn_class e = TypeError
  \/ exn_class e = OverflowError.

(** An exception the program's own operations raise outside a [try], on an
    interpreter whose slices are hashable or not ([h]): an operand error, the
    [KeyError] of a dict subscripted by a slice (only when [h]), or the
    [UnicodeEncodeError] of a title that cannot be printed. *)
Definition own_error (h : bool) (e : exn) : Prop :=
  operand_error e
  \/ (exn_class e = KeyError /\ h = true)
  \/ exn_class e = UnicodeEncodeError.

Definition is_dict (v : pyval) : bool :=
  match v with
  | PDict _ => true
  | _ => false
  end.

(** The label is one of the two that advise buying, or selling. *)
Definition is_buy (r : recommendation) : bool :=
  match r with
  | STRONG_BUY | BUY => true
  | _ => false
  end.

Definition is_sell (r : recommendation) : bool :=
  match r with
  | STRONG_SELL | SELL => true
  | _ => false
  end.

(** A market as the data model has it: a dict whose title is a string
    that can be printed (no lone surrogate in its first 50 characters) and
    whose [yes_bid], when present, is an integer percent. *)
Definition well_formed_market (m : pyval) : Prop :=
  exists d,
    m = PDict d
    /\ (exists s, dict_get d (lit "title") (PStr []) = PStr s
                  /\ encodable (slice_to 50 s) = true)
    /\ (exists z, dict_get d (lit "yes_bid") (PInt 50) = PInt z /\ 0 <= z <= 100).

(** An estimate the arithmetic of [run_analysis] accepts: a dict whose
    [estimated_probability], when present, is a float. *)
Definition well_shaped_estimate (v : pyval) : Prop :=
  exists d,
    v = PDict d
    /\ exists f, dict_get d (lit "estimated_probability") (PFloat 0.5) = PFloat f.

(** Every reply of the model that parses is a well-shaped estimate. *)
Definition replies_well_shaped (jl : pystr -> res pyval) (W : world) : Prop :=
  forall log prompt m text v,
    messages_create W log prompt = Ok m -> first_text m = Ok text ->
    jl (clean_response text) = Ok v -> well_shaped_estimate v.

(** The integer percents, and whether [z / 100.0] lies in the unit interval. *)
Definition percent_in_unit (z : Z) : bool :=
  match py_truediv (PInt z) 100 with
  | Ok p => ((0 <=? p) && (p <=? 1))%float
  | Raise _ => false
  end.

(** What a result keeps of the market it was built from. *)
Definition result_of_market (m : pyval) (r : analysis_result) : Prop :=
  exists d,
    m = PDict d
    /\ ar_ticker r = dict_get d (lit "ticker") (PStr (lit "N/A"))
    /\ ar_title r = dict_get d (lit "title") (PStr (lit "N/A"))
    /\ (ar_sources_count r <= 5)%nat
    /\ ar_edge_percent r = format_plus_1f (ar_edge r * 100)%float ++ lit "%".

(** A primary provider whose answer lists one good article and then one
    without the dict under [source]. *)
Definition half_good_world : world :=
  {| hashable_slices := false;
     kalshi_markets := fun _ => Raise connection_error;
     newsapi_everything := fun _ _ =>
       ok_json (PDict [ (lit "articles",
                          PList [ PDict [ (lit "source", PDict [ (lit "name", PStr (lit "Wire")) ]);
                                          (lit "title", PStr (lit "Good headline")) ];
                                  PDict [ (lit "source", PNone);
                                          (lit "title", PStr (lit "Bad headline")) ];
                                  PDict [ (lit "source", PDict [ (lit "name", PStr (lit "Wire")) ]);
                                          (lit "title", PStr (lit "Late headline")) ] ]) ]);
     google_news_rss := fun _ _ => ok_feed [ feed_item "Unused" "https://example.org/u" ];
     messages_create := replies [] |}.

(** ** The HTTP handlers *)

Record http_response : Type := {
  statusCode : Z;
  headers : list (pystr * pystr);
  body : pystr
}.

(** [bool(v)] *)
Definition py_truthy (v : pyval) : bool :=
  match v with
  | PNone => false
  | PBool b => b
  | PInt z => negb (z =? 0)
  | PFloat f => negb (f =? 0)%float
  | PStr s => match s with [] => false | _ :: _ => true end
  | PList l => match l with [] => false | _ :: _ => true end
  | PDict d => match d with [] => false | _ :: _ => true end
  end.

(** [int(f)] of a float: towards zero; no integer for NaN and infinities. *)
Definition int_of_float (f : float) : res Z :=
  match Prim2SF f with
  | S754_zero _ => Ok 0
  | S754_nan => Raise (Exn ValueError (lit "cannot convert float NaN to integer"))
  | S754_infinity _ =>
      Raise (Exn OverflowError (lit "cannot convert float infinity to integer"))
  | S754_finite s m e =>
      let magnitude := if 0 <=? e then Z.pos m * 2 ^ e else Z.pos m / 2 ^ (- e) in
      Ok (if s then - magnitude else magnitude)
  end.

(** The string a recommendation is in the result dict. *)
Definition recommendation_str (r : recommendation) : pystr :=
  match r with
  | STRONG_BUY => lit "STRONG_BUY"
  | BUY => lit "BUY"
  | STRONG_SELL => lit "STRONG_SELL"
  | SELL => lit "SELL"
  | HOLD => lit "HOLD"
  end.

(** The dict [run_analysis] appends, as a value. *)
Definition result_dict (r : analysis_result) : pyval :=
  PDict [ (lit "ticker", ar_ticker r);
          (lit "title", ar_title r);
          (lit "market_price", PFloat (ar_market_price r));
          (lit "estimated_probability", ar_estimated_probability r);
          (lit "edge", PFloat (ar_edge r));
          (lit "edge_percent", PStr (ar_edge_percent r));
          (lit "confidence", ar_confidence r);
          (lit "recommendation", PStr (recommendation_str (ar_recommendation r)));
          (lit "reasoning", ar_reasoning r);
          (lit "sources_count", PInt (Z.of_nat (ar_sources_count r))) ].

(** [abs(r['edge'])] *)
Definition abs_edge (r : analysis_result) : float := abs (ar_edge r).

(** [[r for r in results if abs(r['edge']) >= min_edge]] *)
Definition filter_by_edge (min_edge : float) (results : list analysis_result)
  : list analysis_result :=
  filter (fun r => (min_edge <=? abs_edge r)%float) results.

(** [l.sort(key=lambda x: abs(x['edge']), reverse=True)]: the stable sort by
    decreasing key. The keys it meets in [handler] have passed the filter,
    so none is NaN and their order is total: the stable sort is then one
    list, which insertion from the right builds. *)
Fixpoint insert_by_abs_edge (r : analysis_result) (sorted : list analysis_result)
  : list analysis_result :=
  match sorted with
  | [] => [r]
  | x :: rest =>
      if (abs_edge r <? abs_edge x)%float
      then x :: insert_by_abs_edge r rest
      else r :: sorted
  end.

Definition sort_by_abs_edge (l : list analysis_result) : list analysis_result :=
  fold_right insert_by_abs_edge [] l.

(** The results the handler lists. *)
Definition opportunities (min_edge : float) (results : list analysis_result)
  : list analysis_result :=
  sort_by_abs_edge (filter_by_edge min_edge results).

Definition cors_headers (methods : pystr) : list (pystr * pystr) :=
  [ (lit "Access-Control-Allow-Origin", lit "*");
    (lit "Access-Control-Allow-Headers", lit "Content-Type, Authorization");
    (lit "Access-Control-Allow-Methods", methods);
    (lit "Content-Type", lit "application/json");
    (lit "Cache-Control", lit "no-cache") ].

Section Handlers.

(** Library functions left open, as before: [json.loads], [str()] of floats
    and containers, [int()] and [float()] of a string (a value, or the text
    of the [ValueError]), [json.dumps] with its [ensure_ascii] flag, and the
    name of an exception's class. *)
Variable json_loads : pystr -> res pyval.
Variable repr_value : pyval -> pystr.
Variable int_of_str : pystr -> Z + pystr.
Variable float_of_str : pystr -> float + pystr.
Variable json_dumps : bool -> pyval -> pystr.
Variable class_name : exn -> pystr.

(** The services, the clock ([datetime.now().isoformat()], read after the
    calls made so far) and the two variables of the environment. *)
Variable W : world.
Variable now_isoformat : list call -> pystr.
Variable anthropic_key : option pystr.
Variable news_key : option pystr.

Open Scope py_scope.

(** [int(v)] *)
Definition py_int (v : pyval) : res Z :=
  match v with
  | PInt z => Ok z
  | PBool b => Ok (if b then 1 else 0)
  | PFloat f => int_of_float f
  | PStr s =>
      match int_of_str s with
      | inl z => Ok z
      | inr msg => Raise (Exn ValueError msg)
      end
  | _ =>
      Raise (Exn TypeError
               (lit "int() argument must be a string, a bytes-like object or a real number, not '"
                ++ type_name v ++ lit "'"))
  end.

(** [float(v)] *)
Definition py_float (v : pyval) : res float :=
  match v with
  | PFloat f => Ok f
  | PInt z => float_of_int z
  | PBool b => Ok (if b then 1%float else 0%float)
  | PStr s =>
      match float_of_str s with
      | inl f => Ok f
      | inr msg => Raise (Exn ValueError msg)
      end
  | _ =>
      Raise (Exn TypeError
               (lit "float() argument must be a string or a real number, not '"
                ++ type_name v ++ lit "'"))
  end.

Definition analyze_headers : list (pystr * pystr) :=
  cors_headers (lit "GET, POST, OPTIONS").

(** The body of a successful analysis. *)
Definition response_data (generated_at : pystr) (results listed : list analysis_result)
  : pyval :=
  PDict [ (lit "success", PBool true);
          (lit "generated_at", PStr generated_at);
          (lit "total_analyzed", PInt (Z.of_nat (List.length results)));
          (lit "total_opportunities", PInt (Z.of_nat (List.length listed)));
          (lit "results", PList (map result_dict listed)) ].

(** The [except] clauses, in order. *)
Definition handle_exception (e : exn) : http_response :=
  match exn_class e with
  | KeyError =>
      {| statusCode := 500; headers := analyze_headers;
         body := json_dumps true
                   (PDict [ (lit "success", PBool false);
                            (lit "error",
                              PStr (lit "Configuration error: " ++ exn_str e));
                            (lit "message",
                              PStr (lit "Check that all required environment variables are set")) ]) |}
  | RequestException =>
      {| statusCode := 503; headers := analyze_headers;
         body := json_dumps true
                   (PDict [ (lit "success", PBool false);
                            (lit "error", PStr (lit "Network error"));
                            (lit "message",
                              PStr (lit "Unable to connect to external services. Please try again.")) ]) |}
  | _ =>
      {| statusCode := 500; headers := analyze_headers;
         body := json_dumps true
                   (PDict [ (lit "success", PBool false);
                            (lit "error", PStr (exn_str e));
                            (lit "type", PStr (class_name e));
                            (lit "message",
                              PStr (lit "An unexpected error occurred. Check function logs for details.")) ]) |}
  end.

(** [handler] of analyze.py *)
Definition handler (event : pyval) : M http_response :=
  http_method <- lift (py_get event (lit "httpMethod") (PStr (lit "GET"))) ;;
  if py_eq_str http_method (lit "OPTIONS") then
    ret {| statusCode := 200; headers := analyze_headers;
           body := json_dumps true (PDict [ (lit "status", PStr (lit "ok")) ]) |}
  else
    try_except
      (if negb (truthy_key anthropic_key) then
         ret {| statusCode := 500; headers := analyze_headers;
                body := json_dumps true
                          (PDict [ (lit "error",
                                     PStr (lit "ANTHROPIC_API_KEY not configured")) ]) |}
       else
         given <- lift (py_get event (lit "queryStringParameters") (PDict [])) ;;
         let params := if py_truthy given then given else PDict [] in
         raw_max <- lift (py_get params (lit "max_events") (PInt 10)) ;;
         max_events <- lift (py_int raw_max) ;;
         raw_min <- lift (py_get params (lit "min_edge") (PFloat 0.05)) ;;
         min_edge <- lift (py_float raw_min) ;;
         let max_events := Z.min max_events 15 in
         results <- run_analysis json_loads repr_value W news_key max_events ;;
         let filtered_results := opportunities min_edge results in
         fun log =>
           (log,
            Ok {| statusCode := 200; headers := analyze_headers;
                  body := json_dumps false
                            (response_data (now_isoformat log) results
                               filtered_results) |}))
      (fun e => ret (handle_exception e)).

(** [handler] of get-results.py: nothing in its [try] can raise. *)
Definition get_results_handler (event : pyval) : res http_response :=
  http_method <~ py_get event (lit "httpMethod") (PStr (lit "GET")) ;;
  if py_eq_str http_method (lit "OPTIONS") then
    Ok {| statusCode := 200; headers := cors_headers (lit "GET, OPTIONS");
          body := json_dumps true (PDict [ (lit "status", PStr (lit "ok")) ]) |}
  else
    Ok {| statusCode := 200; headers := cors_headers (lit "GET, OPTIONS");
          body := json_dumps true
                    (PDict [ (lit "success", PBool true);
                             (lit "message",
                               PStr (lit "No cached results available yet. Click " ++ dq
                                     ++ lit "Run New Analysis" ++ dq
                                     ++ lit " to generate results."));
                             (lit "instructions",
                               PStr (lit "Use the " ++ dq ++ lit "Run New Analysis" ++ dq
                                     ++ lit " button to analyze current Kalshi markets."));
                             (lit "results", PList []);
                             (lit "total_analyzed", PInt 0);
                             (lit "total_opportunities", PInt 0) ]) |}.

End Handlers.

(** Readers of plain decimal literals and a serializer that writes
    nothing, to run the handler on concrete requests. *)
Definition read_int (s : pystr) : Z + pystr :=
  match Json.scan_number s with
  | Some (PInt z, []) => inl z
  | _ => inr (lit "invalid literal for int() with base 10")
  end.

Definition read_float (s : pystr) : float + pystr :=
  match Json.scan_number s with
  | Some (PFloat f, []) => inl f
  | _ => inr (lit "could not convert string to float")
  end.

Definition no_dumps (ensure_ascii : bool) (v : pyval) : pystr := [].
Definition no_class (e : exn) : pystr := [].
Definition no_clock (log : list call) : pystr := [].

(** A GET request with the given query parameters. *)
Definition get_request (params : list (pystr * pyval)) : pyval :=
  PDict [ (lit "httpMethod", PStr (lit "GET"));
          (lit "queryStringParameters", PDict params) ].

Definition run_handler (W : world) (key : option pystr) (event : pyval)
  : list call * res http_response :=
  handler Json.loads no_repr read_int read_float no_dumps no_class W no_clock
    key None event [].

(** [event.get('queryStringParameters', {}) or {}] for the event [ev]. *)
Definition request_params (ev : list (pystr * pyval)) : pyval :=
  let given := dict_get ev (lit "queryStringParameters") (PDict []) in
  if py_truthy given then given else PDict [].

(** The request is a CORS preflight. *)
Definition is_options (ev : list (pystr * pyval)) : bool :=
  py_eq_str (dict_get ev (lit "httpMethod") (PStr (lit "GET"))) (lit "OPTIONS").

(** Decreasing by [abs(edge)]: the next result is not above this one. *)
Definition not_below (a b : analysis_result) : Prop :=
  (abs_edge a <? abs_edge b)%float = false.

(** The two parameters [handler] reads from the request, as it converts
    them: [max_events] first, then [min_edge]. *)
Definition parameters (int_of_str : pystr -> Z + pystr)
    (float_of_str : pystr -> float + pystr) (ev : list (pystr * pyval))
  : res (Z * float) :=
  (raw_max <~ py_get (request_params ev) (lit "max_events") (PInt 10) ;;
   max_events <~ py_int int_of_str raw_max ;;
   raw_min <~ py_get (request_params ev) (lit "min_edge") (PFloat 0.05) ;;
   min_edge <~ py_float float_of_str raw_min ;;
   Ok (max_events, min_edge))%py.

(** An exception met in the [try] of [handler]: one of the program's own,
    or the [ValueError] of [int()] or [float()]. *)
Definition handler_error (e : exn) : Prop :=
  operand_error e \/ exn_class e = ValueError.

(** No answer of the model yields an estimate: the request raises, the answer
    has no text, or the text is not JSON. *)
Definition no_estimate (jl : pystr -> res pyval) (W : world) : Prop :=
  forall log prompt, exists e, estimate_of jl (messages_create W log prompt) = Raise e.

(** The recommendation by the price alone. *)
Definition price_only (yes_bid : Z) : recommendation :=
  if yes_bid <=? 35 then BUY else if 65 <=? yes_bid then SELL else HOLD.

Definition same_recommendation (a b : recommendation) : bool :=
  match a, b with
  | STRONG_BUY, STRONG_BUY | BUY, BUY | STRONG_SELL, STRONG_SELL
  | SELL, SELL | HOLD, HOLD => true
  | _, _ => false
  end.

(** The recommendation for the estimate 0.5 with confidence LOW at the
    price [z / 100.0] is the one by the price alone. *)
Definition price_only_at (z : Z) : bool :=
  match py_truediv (PInt z) 100 with
  | Ok price =>
      same_recommendation (recommend (PStr (lit "LOW")) (0.5 - price)%float)
        (price_only z)
  | Raise _ => false
  end.

(** A result made without an estimate, of the market [m]. *)
Definition unaided_result (m : pyval) (r : analysis_result) : Prop :=
  ar_estimated_probability r = PFloat 0.5
  /\ ar_confidence r = PStr (lit "LOW")
  /\ (exists e, ar_reasoning r = PStr (lit "Error: " ++ exn_str e))
  /\ forall d z,
       m = PDict d -> dict_get d (lit "yes_bid") (PInt 50) = PInt z ->
       0 <= z <= 100 -> ar_recommendation r = price_only z.

(** Two markets at 30 and 70 percent, no news, and a model that cannot be
    reached. *)
Definition mute_world : world :=
  {| hashable_slices := false;
     kalshi_markets := fun _ =>
       ok_json (PDict [ (lit "markets",
                          PList [ market "MKT-L" "Event L" "low" 30;
                                  market "MKT-H" "Event H" "high" 70 ]) ]);
     newsapi_everything := fun _ _ => Raise connection_error;
     google_news_rss := fun _ _ => Raise connection_error;
     messages_create := replies [] |}.

Definition mute_run : list call * res (list analysis_result) :=
  run_analysis Json.loads no_repr mute_world None 10 [].

Definition mute_results : list analysis_result :=
  match snd mute_run with
  | Ok results => results
  | Raise _ => []
  end.

(** Twenty markets, no news, and a model that cannot be reached. *)
Definition crowded_world : world :=
  {| hashable_slices := false;
     kalshi_markets := fun _ =>
       ok_json (PDict [ (lit "markets",
                          PList (repeat (market "MKT-A" "Event A" "first" 40) 20)) ]);
     newsapi_everything := fun _ _ => Raise connection_error;
     google_news_rss := fun _ _ => Raise connection_error;
     messages_create := replies [] |}.

(** A GET request for all markets but the last. *)
Definition crowded_request : list (pystr * pyval) :=
  [ (lit "httpMethod", PStr (lit "GET"));
    (lit "queryStringParameters", PDict [ (lit "max_events", PStr (lit "-1")) ]) ].

(** One market whose title holds a lone surrogate, as the JSON escape
    [\udc80] gives it. *)
Definition surrogate_world : world :=
  {| hashable_slices := false;
     kalshi_markets := fun _ =>
       ok_json (PDict [ (lit "markets",
                          PList [ PDict [ (lit "ticker", PStr (lit "MKT-S"));
                                          (lit "title",
                                            PStr (lit "Event " ++ [56448%N]));
                                          (lit "yes_bid", PInt 40) ] ]) ]);
     newsapi_everything := fun _ _ => Raise connection_error;
     google_news_rss := fun _ _ => Raise connection_error;
     messages_create := replies [] |}.

(** The requests made for one market: one request to the primary news
    provider, or to the feed, or to both in that order for the same query,
    and then one request to the model. *)
Definition market_calls (query prompt : pystr) (calls : list call) : Prop :=
  calls = [CallNewsAPI query; CallClaude prompt]
  \/ calls = [CallNewsAPI query; CallGoogleNews query; CallClaude prompt]
  \/ calls = [CallGoogleNews query; CallClaude prompt].

(** The requests made for the result [r]: those for the market whose
    ticker and title it carries, asked about with that market's query and a
    prompt that lists as many sources as the result counts. *)
Definition result_calls (rv : pyval -> pystr) (r : analysis_result)
    (calls : list call) : Prop :=
  exists d sources,
    ar_ticker r = dict_get d (lit "ticker") (PStr (lit "N/A"))
    /\ ar_title r = dict_get d (lit "title") (PStr (lit "N/A"))
    /\ ar_sources_count r = List.length sources
    /\ market_calls (market_query rv d) (event_prompt rv d sources) calls.

(** * Properties *)

(** ** Stripping and replacing *)








Lemma replace_skips (a : N) (old new x y : pystr) :
  ~ In a x ->
  replace (a :: old) new (x ++ y) = x ++ replace (a :: old) new y.
Proof.
  unfold replace. induction x as [| b x IH]; intros Ha; [reflexivity |].
  cbn [app replace_from starts_with].
  destruct (N.eqb_spec a b) as [-> | _]; [exfalso; apply Ha; left; reflexivity |].
  cbn [andb]. rewrite IH; [reflexivity |]. intros H. apply Ha. right. exact H.
Qed.

















(** ** The order of floats around the thresholds *)

Lemma below_neg_tenth_not_above (e : float) :
  (e <? -0.10)%float = true ->
  (0.10 <? e)%float = false /\ (0.05 <? e)%float = false.
Proof.
  rewrite !ltb_spec.
  change (Prim2SF (-0.10)) with (S754_finite true 7205759403792794 (-56)).
  change (Prim2SF 0.10) with (S754_finite false 7205759403792794 (-56)).
  change (Prim2SF 0.05) with (S754_finite false 7205759403792794 (-57)).
  unfold SFltb, SFcompare.
  destruct (Prim2SF e) as [s | s | | s m x]; try destruct s; try discriminate;
    intros _; split; reflexivity.
Qed.

Lemma above_chain (e : float) :
  ((0.15 <? e)%float = true -> (0.10 <? e)%float = true)
  /\ ((0.10 <? e)%float = true -> (0.05 <? e)%float = true).
Proof.
  rewrite !ltb_spec.
  change (Prim2SF 0.15) with (S754_finite false 5404319552844595 (-55)).
  change (Prim2SF 0.10) with (S754_finite false 7205759403792794 (-56)).
  change (Prim2SF 0.05) with (S754_finite false 7205759403792794 (-57)).
  unfold SFltb, SFcompare.
  destruct (Prim2SF e) as [s | s | | s m x]; try destruct s;
    try (split; intros; (discriminate || reflexivity)).
  split.
  - destruct (Z.compare_spec (-55) x); destruct (Z.compare_spec (-56) x);
      try lia; try discriminate; try reflexivity.
  - destruct (Z.compare_spec (-56) x); destruct (Z.compare_spec (-57) x);
      try lia; try discriminate; try reflexivity.
Qed.

Lemma below_chain (e : float) :
  (e <? -0.15)%float = true -> (e <? -0.10)%float = true.
Proof.
  rewrite !ltb_spec.
  change (Prim2SF (-0.15)) with (S754_finite true 5404319552844595 (-55)).
  change (Prim2SF (-0.10)) with (S754_finite true 7205759403792794 (-56)).
  unfold SFltb, SFcompare.
  destruct (Prim2SF e) as [s | s | | s m x]; try destruct s;
    try (intros; (discriminate || reflexivity)).
  destruct (Z.compare_spec x (-55)); destruct (Z.compare_spec x (-56));
    try lia; try discriminate; try reflexivity.
Qed.

(** ** The recommendation rules *)

Lemma recommend_is_first_match (c : pyval) (e : float) :
  recommend c e = first_match rule_table c e.
Proof.
  unfold recommend, rule_table, first_match.
  destruct (py_eq_str c (lit "HIGH")); cbn [andb];
    repeat match goal with
      | |- context [if ?b then _ else _] => destruct b
      end; reflexivity.
Qed.

(** With confidence HIGH the chain ends in HOLD exactly when the edge is
    neither above 0.05 nor below -0.10. *)
Lemma high_hold_region (e : float) :
  recommend (PStr (lit "HIGH")) e = HOLD
  <-> (0.05 <? e)%float = false /\ (e <? -0.10)%float = false.
Proof.
  unfold recommend.
  change (py_eq_str (PStr (lit "HIGH")) (lit "HIGH")) with true. cbn [andb].
  destruct (above_chain e) as [H15 H10]. pose proof (below_chain e) as Hb.
  destruct (0.10 <? e)%float eqn:E10.
  - rewrite (H10 eq_refl). split; [discriminate | intros [? _]; discriminate].
  - destruct (0.05 <? e)%float eqn:E05;
      [split; [discriminate | intros [? _]; discriminate] |].
    destruct (e <? -0.10)%float eqn:Em10;
      [split; [discriminate | intros [_ ?]; discriminate] |].
    destruct (0.15 <? e)%float; [specialize (H15 eq_refl); discriminate |].
    destruct (e <? -0.15)%float; [specialize (Hb eq_refl); discriminate |].
    split; [intros _; split; reflexivity | reflexivity].
Qed.

(** ** News lookup *)

Lemma append_articles_length (articles : list pyval) (sources : list news_source) :
  (List.length (fst (append_articles articles sources))
   <= List.length sources + List.length articles)%nat.
Proof.
  revert sources; induction articles as [| a rest IH]; intros sources; cbn.
  - lia.
  - destruct (article_source a) as [s | e]; cbn.
    + specialize (IH (sources ++ [s])). rewrite length_app in IH. cbn in IH. lia.
    + lia.
Qed.

Lemma slice_to_5_length {A : Type} (l : list A) :
  (List.length (slice_to 5 l) <= 5)%nat.
Proof.
  unfold slice_to. cbn. apply firstn_le_length.
Qed.

Lemma first_five_length (h : bool) (v : pyval) (first5 : pyval)
    (articles : list pyval) :
  py_slice_to h v 5 = Ok first5 -> py_iter first5 = Ok articles ->
  (List.length articles <= 5)%nat.
Proof.
  destruct v; cbn; try discriminate; try (destruct h; discriminate);
    intros H; injection H as <-; cbn; intros H; injection H as <-.
  - rewrite length_map. apply slice_to_5_length.
  - apply slice_to_5_length.
Qed.

Lemma primary_try_length (W : world) (answer : res response) :
  (List.length (fst (primary_try W answer [])) <= 5)%nat.
Proof.
  unfold primary_try.
  destruct answer as [r | e]; [| cbn; lia].
  destruct (status_code r =? 200); [| cbn; lia].
  destruct (json r) as [j | e]; cbn [res_bind]; [| cbn; lia].
  destruct (py_get j (lit "articles") (PList [])) as [a | e]; cbn [res_bind];
    [| cbn; lia].
  destruct (py_slice_to _ a 5) as [f | e] eqn:Hs; cbn [res_bind]; [| cbn; lia].
  destruct (py_iter f) as [arts | e] eqn:Hi; [| cbn; lia].
  pose proof (first_five_length _ _ _ _ Hs Hi).
  pose proof (append_articles_length arts []). cbn in *. lia.
Qed.

Lemma fallback_try_length (answer : res response) :
  (List.length (fst (fallback_try answer [])) <= 5)%nat.
Proof.
  unfold fallback_try.
  destruct answer as [r | e]; [| cbn; lia].
  destruct (status_code r =? 200); [| cbn; lia].
  destruct (find_all_item r) as [items | e]; [| cbn; lia].
  cbn [fst app]. rewrite length_map. apply firstn_le_length.
Qed.

Lemma fallback_try_descriptions (answer : res response) :
  Forall (fun s => ns_description s = PStr []) (fst (fallback_try answer [])).
Proof.
  unfold fallback_try.
  destruct answer as [r | e]; [| constructor].
  destruct (status_code r =? 200); [| constructor].
  destruct (find_all_item r) as [items | e]; [| constructor].
  cbn [fst app]. apply Forall_forall. intros s Hs. apply in_map_iff in Hs.
  destruct Hs as [it [<- _]]. reflexivity.
Qed.

(** ** The estimator *)

(** On a market that is a dict, [analyze_event] makes one request and
    returns: the parsed answer, or the fallback for what was raised. *)
Lemma analyze_event_dict (jl : pystr -> res pyval) (rv : pyval -> pystr)
    (W : world) (d : list (pystr * pyval)) (sources : list news_source)
    (log : list call) :
  analyze_event jl rv W (PDict d) sources log
  = (log ++ [CallClaude (event_prompt rv d sources)],
     Ok (match estimate_of jl (messages_create W log (event_prompt rv d sources)) with
         | Ok v => v
         | Raise e => fallback_estimate e
         end)).
Proof.
  unfold analyze_event, event_prompt, estimate_of, bind, lift, try_except, perform, ret.
  cbn [py_get].
  destruct (messages_create W log _) as [m | e]; cbn [res_bind]; [| reflexivity].
  destruct (first_text m) as [t | e]; cbn [res_bind]; [| reflexivity].
  destruct (parse_response jl t); reflexivity.
Qed.

(** ** The loop of run_analysis *)

(** What a result of the loop body says about the run that built it. *)
Lemma analyze_market_ok (jl : pystr -> res pyval) (rv : pyval -> pystr)
    (W : world) (key : option pystr) (market : pyval) (log log' : list call)
    (r : analysis_result) :
  analyze_market jl rv W key market log = (log', Ok r) ->
  exists d sources log1 analysis,
    market = PDict d
    /\ search_news W key (market_query rv d) log = (log1, Ok sources)
    /\ analyze_event jl rv W market sources log1 = (log', Ok analysis)
    /\ py_truediv (dict_get d (lit "yes_bid") (PInt 50)) 100 = Ok (ar_market_price r)
    /\ py_get analysis (lit "estimated_probability") (PFloat 0.5)
       = Ok (ar_estimated_probability r)
    /\ py_sub (ar_estimated_probability r) (ar_market_price r) = Ok (ar_edge r)
    /\ py_get analysis (lit "confidence") (PStr (lit "LOW")) = Ok (ar_confidence r)
    /\ ar_recommendation r = recommend (ar_confidence r) (ar_edge r)
    /\ ar_sources_count r = List.length sources.
Proof.
  unfold analyze_market, bind, lift, ret.
  destruct market as [| | | | | | d]; cbn [py_get]; try discriminate.
  destruct (py_slice_to _ _ 50) as [clipped | e]; [| discriminate].
  destruct (py_print _); [| discriminate].
  fold (market_query rv d).
  destruct (search_news W key (market_query rv d) log) as [log1 [sources | e]]
    eqn:Hnews; [| discriminate].
  destruct (analyze_event jl rv W (PDict d) sources log1) as [log2 [analysis | e]]
    eqn:Hevent; [| discriminate].
  destruct (py_truediv _ 100) as [price | e] eqn:Hprice; [| discriminate].
  destruct (py_get analysis (lit "estimated_probability") _) as [est | e] eqn:Hest;
    [| discriminate].
  destruct (py_sub est price) as [edge | e] eqn:Hedge; [| discriminate].
  destruct (py_get analysis (lit "confidence") _) as [conf | e] eqn:Hconf;
    [| discriminate].
  destruct (py_get analysis (lit "reasoning") _) as [reasoning | e]; [| discriminate].
  intros H. injection H as <- <-.
  exists d, sources, log1, analysis.
  cbv beta iota delta [ar_market_price ar_estimated_probability ar_edge
                       ar_confidence ar_recommendation ar_sources_count].
  repeat split; assumption.
Qed.

Lemma extends_refl (l : list call) : extends l l.
Proof. exists []. symmetry. apply app_nil_r. Qed.

Lemma extends_trans (l1 l2 l3 : list call) :
  extends l1 l2 -> extends l2 l3 -> extends l1 l3.
Proof.
  intros [c1 ->] [c2 ->]. exists (c1 ++ c2). symmetry. apply app_assoc.
Qed.

Lemma extends_app (l calls : list call) : extends l (l ++ calls).
Proof. exists calls. reflexivity. Qed.

Lemma extends_in (l l' : list call) (c : call) :
  extends l l' -> In c l -> In c l'.
Proof. intros [calls ->] H. apply in_or_app. left. exact H. Qed.

Lemma search_news_total (W : world) (key : option pystr) (query : pystr)
    (log : list call) :
  exists log' sources,
    search_news W key query log = (log', Ok sources)
    /\ extends log log' /\ (List.length sources <= 5)%nat.
Proof.
  unfold search_news, bind, primary_step, fallback_step, ret.
  destruct (truthy_key key).
  - destruct (fst (primary_try W (newsapi_everything W log query) [])) as [| s rest] eqn:Hp.
    + eexists _, _. split; [reflexivity |]. split.
      * rewrite <- app_assoc. apply extends_app.
      * apply fallback_try_length.
    + eexists _, _. split; [reflexivity |]. split.
      * apply extends_app.
      * rewrite <- Hp. apply primary_try_length.
  - eexists _, _. split; [reflexivity |]. split.
    + apply extends_app.
    + apply fallback_try_length.
Qed.

Lemma get_active_markets_total (W : world) (log : list call) :
  exists fetched, get_active_markets W log = (log ++ [CallMarkets], Ok fetched).
Proof.
  unfold get_active_markets, try_except, bind, perform, lift, ret.
  destruct (kalshi_markets W log) as [r | e]; [| eexists; reflexivity].
  destruct (status_code r =? 200); [| eexists; reflexivity].
  destruct (json r) as [j | e]; cbn [res_bind]; [| eexists; reflexivity].
  destruct (py_get j (lit "markets") (PList [])); eexists; reflexivity.
Qed.

Lemma analyze_market_extends (jl : pystr -> res pyval) (rv : pyval -> pystr)
    (W : world) (key : option pystr) (market : pyval) (log log' : list call)
    (r : analysis_result) :
  analyze_market jl rv W key market log = (log', Ok r) -> extends log log'.
Proof.
  intros H. apply analyze_market_ok in H.
  destruct H as (d & sources & log1 & analysis & -> & Hnews & Hevent & _).
  destruct (search_news_total W key (market_query rv d) log)
    as (l1 & s1 & Heq & Hext & _).
  rewrite Heq in Hnews. injection Hnews as -> ->.
  rewrite analyze_event_dict in Hevent. injection Hevent as <- _.
  eapply extends_trans; [exact Hext | apply extends_app].
Qed.

Lemma analyze_markets_results (jl : pystr -> res pyval) (rv : pyval -> pystr)
    (W : world) (key : option pystr) (markets : list pyval) :
  forall (acc : list analysis_result) (log log' : list call)
         (results : list analysis_result),
    analyze_markets jl rv W key markets acc log = (log', Ok results) ->
    extends log log'
    /\ exists rs, results = acc ++ rs
                  /\ Forall2 (built_from jl rv W key log log') markets rs.
Proof.
  induction markets as [| m rest IH]; intros acc log log' results; cbn [analyze_markets].
  - unfold ret. intros H. injection H as <- <-. split; [apply extends_refl |].
    exists []. split; [symmetry; apply app_nil_r | constructor].
  - unfold bind at 1.
    destruct (analyze_market jl rv W key m log) as [log1 [r | e]] eqn:Hm;
      [| discriminate].
    intros H. apply IH in H. destruct H as (Hext & rs & -> & Hall).
    pose proof (analyze_market_extends _ _ _ _ _ _ _ _ Hm) as Hext1.
    split; [eapply extends_trans; eassumption |].
    exists (r :: rs). split; [rewrite <- app_assoc; reflexivity |].
    constructor.
    + exists log, log1. repeat split; [exact Hm | apply extends_refl | exact Hext].
    + eapply Forall2_impl; [| exact Hall].
      intros m' r' (l & l' & Hrun & Hl & Hl').
      exists l, l'. repeat split; [exact Hrun | | exact Hl'].
      eapply extends_trans; eassumption.
Qed.

(** A run that returns went through the fetch, the slice and the loop. *)
Lemma run_analysis_ok (jl : pystr -> res pyval) (rv : pyval -> pystr)
    (W : world) (key : option pystr) (max_events : Z) (log log' : list call)
    (results : list analysis_result) :
  run_analysis jl rv W key max_events log = (log', Ok results) ->
  exists fetched sliced markets,
    get_active_markets W log = (log ++ [CallMarkets], Ok fetched)
    /\ py_slice_to (hashable_slices W) fetched max_events = Ok sliced
    /\ py_iter sliced = Ok markets
    /\ analyze_markets jl rv W key markets [] (log ++ [CallMarkets])
       = (log', Ok results)
    /\ Forall2 (built_from jl rv W key log log') markets results.
Proof.
  unfold run_analysis, bind, lift.
  destruct (get_active_markets_total W log) as [fetched Hf]. rewrite Hf.
  destruct (py_slice_to (hashable_slices W) fetched max_events) as [sliced | e] eqn:Hs; [| discriminate].
  destruct (py_iter sliced) as [markets | e] eqn:Hi; [| discriminate].
  intros H. exists fetched, sliced, markets. repeat split; try assumption.
  apply analyze_markets_results in H. destruct H as (_ & rs & -> & Hall).
  cbn [app]. eapply Forall2_impl; [| exact Hall].
  intros m r (l & l' & Hrun & Hl & Hl'). exists l, l'. repeat split; try assumption.
  eapply extends_trans; [apply extends_app | exact Hl].
Qed.

Lemma Forall2_in_right {A B : Type} (P : A -> B -> Prop) (l : list A) (l' : list B)
    (y : B) :
  Forall2 P l l' -> In y l' -> exists x, In x l /\ P x y.
Proof.
  induction 1 as [| x y' l l' Hxy _ IH]; intros Hin; [destruct Hin |].
  destruct Hin as [-> | Hin].
  - exists x. split; [left; reflexivity | exact Hxy].
  - destruct (IH Hin) as [x' [Hx' Hp]]. exists x'. split; [right |]; assumption.
Qed.

(** Every result of a run was built by the loop body from a fetched market. *)
Lemma run_analysis_result (jl : pystr -> res pyval) (rv : pyval -> pystr)
    (W : world) (key : option pystr) (max_events : Z) (log log' : list call)
    (results : list analysis_result) (r : analysis_result) :
  run_analysis jl rv W key max_events log = (log', Ok results) ->
  In r results ->
  exists m, built_from jl rv W key log log' m r.
Proof.
  intros Hrun Hin. apply run_analysis_ok in Hrun.
  destruct Hrun as (fetched & sliced & markets & _ & _ & _ & _ & Hall).
  destruct (Forall2_in_right _ _ _ _ Hall Hin) as [m [_ Hm]].
  exists m. exact Hm.
Qed.

(** A run that returns has one result for each market it iterated over. *)
Lemma run_analysis_length (jl : pystr -> res pyval) (rv : pyval -> pystr)
    (W : world) (key : option pystr) (max_events : Z) (log log' : list call)
    (results : list analysis_result) :
  run_analysis jl rv W key max_events log = (log', Ok results) ->
  exists fetched sliced markets,
    get_active_markets W log = (log ++ [CallMarkets], Ok fetched)
    /\ py_slice_to (hashable_slices W) fetched max_events = Ok sliced
    /\ py_iter sliced = Ok markets
    /\ List.length results = List.length markets.
Proof.
  intros Hrun. apply run_analysis_ok in Hrun.
  destruct Hrun as (fetched & sliced & markets & Hf & Hs & Hi & _ & Hall).
  exists fetched, sliced, markets. repeat split; try assumption.
  symmetry. exact (Forall2_length Hall).
Qed.

Lemma demo_run_ok : demo_run = (fst demo_run, Ok demo_results).
Proof. vm_compute. reflexivity. Qed.

(** ** The claims *)

(** C1. The recommendation is the first match of the rule table, in the
    order (1) HIGH and edge > 0.10: STRONG_BUY, (2) HIGH and edge > 0.05:
    BUY, (3) HIGH and edge < -0.10: STRONG_SELL, (4) edge > 0.15: BUY,
    (5) edge < -0.15: SELL, (6) HOLD: the chain of [run_analysis] computes
    the first match of [rule_table] for every confidence and edge, the six
    sample edges get the labels the specification lists, and every result of
    a run carries the first match for its own confidence and edge. *)
Theorem recommendation_first_match :
  (forall (c : pyval) (e : float), recommend c e = first_match rule_table c e)
  /\ (recommend (PStr (lit "HIGH")) 0.12 = STRONG_BUY
      /\ recommend (PStr (lit "HIGH")) 0.07 = BUY
      /\ recommend (PStr (lit "HIGH")) (-0.12) = STRONG_SELL
      /\ recommend (PStr (lit "LOW")) 0.20 = BUY
      /\ recommend (PStr (lit "LOW")) (-0.20) = SELL
      /\ recommend (PStr (lit "LOW")) 0.0 = HOLD)
  /\ (forall jl rv W key max_events log log' results r,
        run_analysis jl rv W key max_events log = (log', Ok results) ->
        In r results ->
        ar_recommendation r
        = first_match rule_table (ar_confidence r) (ar_edge r)).
Proof.
  split; [exact recommend_is_first_match |].
  split; [repeat split; vm_compute; reflexivity |].
  intros jl rv W key max_events log log' results r Hrun Hin.
  destruct (run_analysis_result _ _ _ _ _ _ _ _ _ Hrun Hin)
    as (m & l & l' & Hm & _).
  apply analyze_market_ok in Hm.
  destruct Hm as (d & sources & log1 & analysis & _ & _ & _ & _ & _ & _ & _ & Hrec & _).
  rewrite Hrec. apply recommend_is_first_match.
Qed.

(** The run on the two markets: each result carries the first match, here
    STRONG_BUY and HOLD. *)
Lemma recommendation_first_match_witness :
  Forall (fun r => ar_recommendation r
                   = first_match rule_table (ar_confidence r) (ar_edge r))
    demo_results
  /\ map ar_recommendation demo_results = [STRONG_BUY; HOLD].
Proof.
  split; [| vm_compute; reflexivity].
  apply Forall_forall. intros r Hr.
  exact (proj2 (proj2 recommendation_first_match) Json.loads no_repr demo_world
           None 10 [] (fst demo_run) demo_results r demo_run_ok Hr).
Defined.

(** C2. In every result of a run the edge is the estimated probability
    minus the market price, as the subtraction of the program computes it
    from those two fields of the same result. *)
Theorem edge_is_difference (jl : pystr -> res pyval) (rv : pyval -> pystr)
    (W : world) (key : option pystr) (max_events : Z) (log log' : list call)
    (results : list analysis_result) (r : analysis_result) :
  run_analysis jl rv W key max_events log = (log', Ok results) ->
  In r results ->
  py_sub (ar_estimated_probability r) (ar_market_price r) = Ok (ar_edge r).
Proof.
  intros Hrun Hin.
  destruct (run_analysis_result _ _ _ _ _ _ _ _ _ Hrun Hin)
    as (m & l & l' & Hm & _).
  apply analyze_market_ok in Hm.
  destruct Hm as (d & sources & log1 & analysis & _ & _ & _ & _ & _ & Hedge & _).
  exact Hedge.
Qed.

(** The run on the two markets: edges 0.6 - 0.4 and 0.5 - 0.6. *)
Lemma edge_is_difference_witness :
  Forall (fun r => py_sub (ar_estimated_probability r) (ar_market_price r)
                   = Ok (ar_edge r)) demo_results
  /\ map ar_edge demo_results = [(0.6 - 0.4)%float; (0.5 - 0.6)%float].
Proof.
  split; [| vm_compute; reflexivity].
  apply Forall_forall. intros r Hr.
  exact (edge_is_difference Json.loads no_repr demo_world None 10 []
           (fst demo_run) demo_results r demo_run_ok Hr).
Defined.

(** C4, as amended. With confidence HIGH and an edge strictly between -0.15
    and -0.10, rule 3 (HIGH and edge < -0.10) is the first that matches: the
    recommendation is STRONG_SELL, not HOLD. *)
Theorem high_between_thresholds_strong_sell (e : float) :
  (-0.15 <? e)%float = true ->
  (e <? -0.10)%float = true ->
  recommend (PStr (lit "HIGH")) e = STRONG_SELL
  /\ first_match rule_table (PStr (lit "HIGH")) e = STRONG_SELL.
Proof.
  intros _ Hlow.
  assert (recommend (PStr (lit "HIGH")) e = STRONG_SELL) as H.
  { unfold recommend.
    change (py_eq_str (PStr (lit "HIGH")) (lit "HIGH")) with true. cbn [andb].
    destruct (below_neg_tenth_not_above e Hlow) as [-> ->]. rewrite Hlow.
    reflexivity. }
  split; [exact H |]. rewrite <- recommend_is_first_match. exact H.
Qed.

(** The edge -0.12 at confidence HIGH. *)
Lemma high_between_thresholds_strong_sell_witness :
  recommend (PStr (lit "HIGH")) (-0.12) = STRONG_SELL
  /\ first_match rule_table (PStr (lit "HIGH")) (-0.12) = STRONG_SELL.
Proof.
  apply (high_between_thresholds_strong_sell (-0.12)); vm_compute; reflexivity.
Defined.

(** C4 as stated fails: at confidence HIGH and edge -0.12, strictly between
    -0.15 and -0.10, the recommendation is STRONG_SELL and not HOLD. *)
Lemma high_gap_counterexample :
  (-0.15 <? -0.12)%float = true
  /\ (-0.12 <? -0.10)%float = true
  /\ recommend (PStr (lit "HIGH")) (-0.12) = STRONG_SELL
  /\ recommend (PStr (lit "HIGH")) (-0.12) <> HOLD.
Proof.
  repeat split; try (vm_compute; reflexivity).
  vm_compute. discriminate.
Qed.

(** C5. [search_news] returns for every query, in every world and with or
    without a credential: it never raises, and it returns at most five
    sources. *)
Theorem search_news_at_most_five (W : world) (key : option pystr)
    (query : pystr) (log : list call) :
  exists log' sources,
    search_news W key query log = (log', Ok sources)
    /\ (0 <= List.length sources <= 5)%nat.
Proof.
  destruct (search_news_total W key query log) as (log' & sources & H & _ & Hlen).
  exists log', sources. split; [exact H | lia].
Qed.

(** C6. When the first step of [search_news] leaves no source (no
    credential, a transport failure or an empty result among the causes),
    the feed is queried once for the same query and the result is what the
    fallback appends: at most five sources, the first five items of the feed
    when it answers, each with an empty description. When the first step
    leaves a source, the only request made is the primary one and its
    sources are the result. *)
Theorem search_news_fallback (W : world) (key : option pystr) (query : pystr)
    (log : list call) :
  exists log1 sources1,
    primary_step W key query [] log = (log1, Ok sources1)
    /\ (truthy_key key = false -> log1 = log /\ sources1 = [])
    /\ (forall e, newsapi_everything W log query = Raise e -> sources1 = [])
    /\ (forall r j, newsapi_everything W log query = Ok r ->
                    status_code r = 200 -> json r = Ok j ->
                    py_get j (lit "articles") (PList []) = Ok (PList []) ->
                    sources1 = [])
    /\ match sources1 with
       | [] =>
           let answer := google_news_rss W log1 query in
           let found := fst (fallback_try answer []) in
           search_news W key query log = (log1 ++ [CallGoogleNews query], Ok found)
           /\ (List.length found <= 5)%nat
           /\ Forall (fun s => ns_description s = PStr []) found
           /\ (forall r items,
                  answer = Ok r -> status_code r = 200 ->
                  find_all_item r = Ok items ->
                  found = map item_source (firstn 5 items))
       | _ :: _ =>
           log1 = log ++ [CallNewsAPI query]
           /\ search_news W key query log = (log1, Ok sources1)
       end.
Proof.
  assert (forall log1 : list call,
             let answer := google_news_rss W log1 query in
             let found := fst (fallback_try answer []) in
             (List.length found <= 5)%nat
             /\ Forall (fun s => ns_description s = PStr []) found
             /\ (forall r items,
                    answer = Ok r -> status_code r = 200 ->
                    find_all_item r = Ok items ->
                    found = map item_source (firstn 5 items))) as Hfb.
  { intros log1 answer found.
    split; [apply fallback_try_length |].
    split; [apply fallback_try_descriptions |].
    intros r items Ha Hs Hi. subst found. rewrite Ha. unfold fallback_try.
    rewrite Hs, Hi. reflexivity. }
  unfold search_news, bind, primary_step, fallback_step, ret.
  destruct (truthy_key key) eqn:Hkey.
  - eexists _, _. split; [reflexivity |].
    split; [discriminate |].
    split; [intros e ->; reflexivity |].
    split.
    { intros r j -> Hs Hj Ha. unfold primary_try. rewrite Hs, Hj.
      cbn [res_bind]. rewrite Ha. reflexivity. }
    destruct (fst (primary_try W (newsapi_everything W log query) [])) as [| s rest].
    + split; [reflexivity | apply Hfb].
    + split; reflexivity.
  - eexists _, _. split; [reflexivity |].
    split; [intros _; split; reflexivity |].
    split; [reflexivity |].
    split; [reflexivity |].
    split; [reflexivity | apply Hfb].
Qed.

(** No credential and a feed of three items: three sources, descriptions
    empty, one feed request. A credential and one article: that article, and
    only the primary request. *)
Lemma search_news_fallback_witness :
  (exists found,
      search_news demo_world None (lit "Event A first") []
      = ([CallGoogleNews (lit "Event A first")], Ok found)
      /\ List.length found = 3%nat
      /\ Forall (fun s => ns_description s = PStr []) found)
  /\ (exists found,
         search_news primary_world (Some (lit "k")) (lit "Event A first") []
         = ([CallNewsAPI (lit "Event A first")], Ok found)
         /\ map ns_title found = [PStr (lit "Primary headline")]).
Proof.
  split.
  - destruct (search_news_fallback demo_world None (lit "Event A first") [])
      as (log1 & sources1 & Hp & _ & _ & _ & H).
    vm_compute in Hp. injection Hp as <- <-.
    destruct H as (Hs & _ & Hd & _).
    eexists. split; [exact Hs |]. split; [vm_compute; reflexivity | exact Hd].
  - destruct (search_news_fallback primary_world (Some (lit "k"))
                (lit "Event A first") []) as (log1 & sources1 & Hp & _ & _ & _ & H).
    vm_compute in Hp. injection Hp as <- <-.
    destruct H as (_ & Hs).
    eexists. split; [exact Hs | vm_compute; reflexivity].
Defined.

Lemma slice_to_nil {A : Type} (n : Z) : slice_to n (@nil A) = [].
Proof. unfold slice_to. destruct (n <? 0); apply firstn_nil. Qed.

(** C7. When the request to the market API raises, or is answered with a
    status other than 200, [get_active_markets] returns the empty list and
    raises nothing; a run on it returns no result, and no error. *)
Theorem get_active_markets_failure_empty (W : world) (log : list call) :
  (exists e, kalshi_markets W log = Raise e)
  \/ (exists r, kalshi_markets W log = Ok r /\ status_code r <> 200) ->
  get_active_markets W log = (log ++ [CallMarkets], Ok (PList []))
  /\ (forall jl rv key max_events,
        run_analysis jl rv W key max_events log = (log ++ [CallMarkets], Ok [])).
Proof.
  intros H.
  assert (get_active_markets W log = (log ++ [CallMarkets], Ok (PList []))) as Hg.
  { unfold get_active_markets, try_except, bind, perform, lift, ret.
    destruct H as [[e ->] | (r & -> & Hs)]; [reflexivity |].
    apply Z.eqb_neq in Hs. rewrite Hs. reflexivity. }
  split; [exact Hg |].
  intros jl rv key max_events. unfold run_analysis, bind, lift. rewrite Hg.
  cbn [py_slice_to py_iter]. rewrite slice_to_nil. reflexivity.
Qed.

(** A market API that cannot be reached, and one that answers 503. *)
Lemma get_active_markets_failure_empty_witness :
  (get_active_markets unreachable_world [] = ([CallMarkets], Ok (PList []))
   /\ (forall jl rv key max_events,
         run_analysis jl rv unreachable_world key max_events []
         = ([CallMarkets], Ok [])))
  /\ (get_active_markets overloaded_world [] = ([CallMarkets], Ok (PList []))
      /\ (forall jl rv key max_events,
            run_analysis jl rv overloaded_world key max_events []
            = ([CallMarkets], Ok []))).
Proof.
  split.
  - apply (get_active_markets_failure_empty unreachable_world []).
    left. exists connection_error. reflexivity.
  - apply (get_active_markets_failure_empty overloaded_world []).
    right. eexists. split; [reflexivity | discriminate].
Defined.




Lemma contains_app_l (n h t : pystr) : contains n h -> contains n (h ++ t).
Proof.
  intros (b & a & ->). exists b, (a ++ t). rewrite <- !app_assoc. reflexivity.
Qed.

Lemma contains_app_r (n p h : pystr) : contains n h -> contains n (p ++ h).
Proof.
  intros (b & a & ->). exists (p ++ b), a. rewrite <- app_assoc. reflexivity.
Qed.

Lemma contains_prefix (n t : pystr) : contains n (n ++ t).
Proof. exists [], t. reflexivity. Qed.

Lemma prompt_renders_default (rv : pyval -> pystr) (d : list (pystr * pyval))
    (sources : list news_source) :
  dict_lookup d (lit "yes_bid") = None ->
  contains (lit "Current Market Price: 50%") (event_prompt rv d sources).
Proof.
  intros Hnone. unfold event_prompt, build_prompt, build_context.
  unfold dict_get at 3. rewrite Hnone.
  apply contains_app_l. do 6 apply contains_app_r.
  apply (contains_prefix (lit "Current Market Price: 50%")).
Qed.

Lemma analyze_market_default_price (jl : pystr -> res pyval) (rv : pyval -> pystr)
    (W : world) (key : option pystr) (m : pyval) (log log' : list call)
    (r : analysis_result) :
  analyze_market jl rv W key m log = (log', Ok r) ->
  priced_at_half rv log' m r.
Proof.
  intros Hrun d -> Hnone. apply analyze_market_ok in Hrun.
  destruct Hrun as (d' & sources & log1 & analysis & Hd & _ & Hevent & Hprice
                    & _ & Hedge & _).
  injection Hd as <-.
  unfold dict_get in Hprice. rewrite Hnone in Hprice.
  change (py_truediv (PInt 50) 100) with (@Ok float 0.5%float) in Hprice.
  injection Hprice as Hprice. rewrite <- Hprice in *.
  split; [reflexivity |]. split; [exact Hedge |].
  exists sources. split; [| apply prompt_renders_default; exact Hnone].
  rewrite analyze_event_dict in Hevent. injection Hevent as <- _.
  apply in_or_app. right. left. reflexivity.
Qed.

Lemma no_bid_run_ok : no_bid_run = (fst no_bid_run, Ok no_bid_results).
Proof. vm_compute. reflexivity. Qed.

(** C10. A market object without [yes_bid] is priced at 0.5: in a run that
    returns, every such market among those fetched has a result whose
    market price is 0.5 and whose edge is the estimated probability minus
    0.5, and the prompt sent for it, which the log of the run holds, reads
    [Current Market Price: 50%]. *)
Theorem missing_yes_bid_defaults (jl : pystr -> res pyval) (rv : pyval -> pystr)
    (W : world) (key : option pystr) (max_events : Z) (log log' : list call)
    (results : list analysis_result) :
  run_analysis jl rv W key max_events log = (log', Ok results) ->
  exists fetched sliced markets,
    get_active_markets W log = (log ++ [CallMarkets], Ok fetched)
    /\ py_slice_to (hashable_slices W) fetched max_events = Ok sliced
    /\ py_iter sliced = Ok markets
    /\ Forall2 (priced_at_half rv log') markets results.
Proof.
  intros Hrun. apply run_analysis_ok in Hrun.
  destruct Hrun as (fetched & sliced & markets & Hf & Hs & Hi & _ & Hall).
  exists fetched, sliced, markets. repeat split; try assumption.
  eapply Forall2_impl; [| exact Hall].
  intros m r (l & l' & Hm & _ & Hext) d Hd Hnone.
  destruct (analyze_market_default_price _ _ _ _ _ _ _ _ Hm d Hd Hnone)
    as (Hp & He & sources & Hin & Hc).
  repeat split; try assumption.
  exists sources. split; [| exact Hc].
  eapply extends_in; eassumption.
Qed.

(** The run on the market without [yes_bid]: price 0.5, edge 0.6 - 0.5. *)
Lemma missing_yes_bid_defaults_witness :
  Forall (fun r => ar_market_price r = 0.5%float
                   /\ py_sub (ar_estimated_probability r) 0.5 = Ok (ar_edge r))
    no_bid_results
  /\ map ar_edge no_bid_results = [(0.6 - 0.5)%float].
Proof.
  split; [| vm_compute; reflexivity].
  destruct (missing_yes_bid_defaults Json.loads no_repr no_bid_world None 10 []
              (fst no_bid_run) no_bid_results no_bid_run_ok)
    as (fetched & sliced & markets & Hf & Hs & Hi & Hall).
  vm_compute in Hf. injection Hf as <-.
  vm_compute in Hs. injection Hs as <-.
  vm_compute in Hi. injection Hi as <-.
  apply Forall_forall. intros r Hr.
  destruct (Forall2_in_right _ _ _ _ Hall Hr) as (m & [<- | []] & Hm).
  destruct (Hm no_bid_market eq_refl eq_refl) as (Hp & He & _).
  split; assumption.
Defined.




(** C8 fails on the code. The first of two markets gets a reply that is
    valid JSON with all three keys and a probability written as a string:
    the estimator returns it, the subtraction raises, and the run ends with
    that exception and no result, the second market never analysed. With a
    numeric probability in the same reply the run returns two results. *)
Theorem run_analysis_aborts_on_string_probability :
  let W := two_markets [string_probability_text; reply_low] in
  let out := run_analysis Json.loads no_repr W None 10 [] in
  Json.loads (clean_response string_probability_text)
  = Ok (PDict [ (lit "estimated_probability", PStr (lit "0.6"));
                (lit "confidence", PStr (lit "HIGH"));
                (lit "reasoning", PStr (lit "likely")) ])
  /\ snd out
     = Raise (Exn TypeError (lit "unsupported operand type(s) for -: 'str' and 'float'"))
  /\ filter is_claude (fst out)
     = [CallClaude (event_prompt no_repr market_a
                      (map item_source [ feed_item "Headline 1" "https://example.org/1";
                                         feed_item "Headline 2" "https://example.org/2";
                                         feed_item "Headline 3" "https://example.org/3" ]))]
  /\ List.length demo_results = 2%nat.
Proof.
  cbv zeta. repeat split; vm_compute; reflexivity.
Qed.

(** * Further properties of the code *)

(** ** get_active_markets *)

(** X1. [get_active_markets] makes exactly one request and never raises. On
    a 200 answer whose JSON is an object it returns the value under
    [markets], the empty list when the key is absent; when the body is no
    JSON, or JSON that is not an object, it returns the empty list. *)
Theorem get_active_markets_value (W : world) (log : list call) :
  exists v,
    get_active_markets W log = (log ++ [CallMarkets], Ok v)
    /\ (forall r d,
          kalshi_markets W log = Ok r -> status_code r = 200 ->
          json r = Ok (PDict d) ->
          v = dict_get d (lit "markets") (PList []))
    /\ (forall r e,
          kalshi_markets W log = Ok r -> status_code r = 200 ->
          json r = Raise e -> v = PList [])
    /\ (forall r j,
          kalshi_markets W log = Ok r -> status_code r = 200 ->
          json r = Ok j -> is_dict j = false -> v = PList []).
Proof.
  unfold get_active_markets, try_except, bind, perform, lift, ret.
  destruct (kalshi_markets W log) as [r | e].
  2:{ eexists. split; [reflexivity |]. repeat split; intros; discriminate. }
  destruct (status_code r =? 200) eqn:Hs.
  2:{ eexists. split; [reflexivity |].
      repeat split; intros r' ? Hr Hs'; injection Hr as <-;
        rewrite Hs' in Hs; discriminate. }
  destruct (json r) as [j | e] eqn:Hj; cbn [res_bind].
  2:{ eexists. split; [reflexivity |].
      repeat split; intros r' ? Hr _ Hj'; injection Hr as <-;
        try reflexivity; rewrite Hj in Hj'; discriminate. }
  destruct j; cbn [py_get];
    (eexists; split; [reflexivity |];
     repeat split; intros r' ? Hr _ Hj'; injection Hr as <-;
     rewrite Hj in Hj'; try discriminate; try reflexivity;
     try (injection Hj' as <-; reflexivity);
     try (injection Hj' as <-; intros; discriminate)).
Qed.

(** ** analyze_event *)

(** X2. On a market that is not a dict, [analyze_event] raises an
    [AttributeError] at its first lookup, before any request is made. *)
Theorem analyze_event_not_dict (jl : pystr -> res pyval) (rv : pyval -> pystr)
    (W : world) (event : pyval) (sources : list news_source) (log : list call) :
  is_dict event = false ->
  exists e,
    analyze_event jl rv W event sources log = (log, Raise e)
    /\ exn_class e = AttributeError.
Proof.
  intros H. unfold analyze_event, bind, lift.
  destruct event; try discriminate H; cbn [py_get];
    (eexists; split; [reflexivity | reflexivity]).
Qed.

Lemma analyze_event_not_dict_witness :
  exists e,
    analyze_event Json.loads no_repr demo_world (PStr (lit "MKT-A")) [] []
    = ([], Raise e)
    /\ exn_class e = AttributeError.
Proof.
  exact (analyze_event_not_dict Json.loads no_repr demo_world
           (PStr (lit "MKT-A")) [] [] eq_refl).
Defined.

(** ** The recommendation *)

(** X3. The label agrees with the sign of the edge: a buy label is given
    only when the edge is above 0.05, a sell label only when it is below
    -0.10. An edge that is NaN therefore gets HOLD. *)
Theorem recommend_direction (c : pyval) (e : float) :
  (is_buy (recommend c e) = true -> (0.05 <? e)%float = true)
  /\ (is_sell (recommend c e) = true -> (e <? -0.10)%float = true)
  /\ ((0.05 <? e)%float = false -> (e <? -0.10)%float = false ->
      recommend c e = HOLD).
Proof.
  destruct (above_chain e) as [H15 H10]. pose proof (below_chain e) as Hb.
  unfold recommend.
  destruct (py_eq_str c (lit "HIGH")); cbn [andb];
    destruct (0.10 <? e)%float eqn:E10;
    destruct (0.05 <? e)%float eqn:E05;
    destruct (e <? -0.10)%float eqn:Em10;
    destruct (0.15 <? e)%float eqn:E15;
    destruct (e <? -0.15)%float eqn:Em15;
    cbn [is_buy is_sell];
    try (specialize (H15 eq_refl)); try (specialize (H10 eq_refl));
    try (specialize (Hb eq_refl));
    repeat split; intros; congruence.
Qed.

(** X4. STRONG labels need confidence HIGH, and confidence HIGH never gets
    the plain SELL. Any other confidence (LOW, MEDIUM, a missing or
    malformed value) is decided by the thresholds 0.15 and -0.15 alone. *)
Theorem recommend_confidence (c : pyval) (e : float) :
  (recommend c e = STRONG_BUY \/ recommend c e = STRONG_SELL ->
   c = PStr (lit "HIGH"))
  /\ (c = PStr (lit "HIGH") -> recommend c e <> SELL)
  /\ (c <> PStr (lit "HIGH") ->
      recommend c e
      = if (0.15 <? e)%float then BUY
        else if (e <? -0.15)%float then SELL else HOLD).
Proof.
  assert (py_eq_str c (lit "HIGH") = true <-> c = PStr (lit "HIGH")) as Heq.
  { split.
    - destruct c; cbn [py_eq_str]; try discriminate. intros H. f_equal.
      revert H. generalize (lit "HIGH"). induction s as [| x s IH];
        intros [| y t]; cbn; try discriminate; [reflexivity |].
      intros H. apply andb_prop in H. destruct H as [Hx Ht].
      apply N.eqb_eq in Hx. subst. f_equal. apply IH. exact Ht.
    - intros ->. reflexivity. }
  pose proof (below_chain e) as Hb.
  unfold recommend.
  destruct (py_eq_str c (lit "HIGH")) eqn:Hc; cbn [andb].
  - apply proj1 in Heq. specialize (Heq eq_refl).
    repeat split.
    + intros _. exact Heq.
    + intros _.
      destruct (0.10 <? e)%float; [discriminate |].
      destruct (0.05 <? e)%float; [discriminate |].
      destruct (e <? -0.10)%float eqn:Em10; [discriminate |].
      destruct (0.15 <? e)%float; [discriminate |].
      destruct (e <? -0.15)%float; [specialize (Hb eq_refl); discriminate |].
      discriminate.
    + intros Hne. contradiction.
  - repeat split.
    + intros [H | H];
        destruct (0.15 <? e)%float; try discriminate H;
        destruct (e <? -0.15)%float; discriminate H.
    + intros ->. discriminate Hc.
Qed.

(** ** clean_response *)

Lemma lstrip_suffix (s : pystr) : exists p, s = p ++ lstrip s.
Proof.
  induction s as [| x s [p Hp]]; [exists []; reflexivity |]. cbn.
  destruct (is_space x); [| exists []; reflexivity].
  exists (x :: p). cbn. rewrite <- Hp. reflexivity.
Qed.

Lemma lstrip_head (s : pystr) (c : N) (t : pystr) :
  lstrip s = c :: t -> is_space c = false.
Proof.
  induction s as [| x s IH]; cbn; [discriminate |].
  destruct (is_space x) eqn:Hx; [exact IH |].
  intros H. injection H as <- _. exact Hx.
Qed.

Lemma lstrip_id (s : pystr) :
  (forall c t, s = c :: t -> is_space c = false) -> lstrip s = s.
Proof.
  destruct s as [| x s]; [reflexivity |]. intros H. cbn.
  rewrite (H x s eq_refl). reflexivity.
Qed.

Lemma lstrip_in (s : pystr) (c : N) : In c (lstrip s) -> In c s.
Proof.
  destruct (lstrip_suffix s) as [p Hp]. intros H. rewrite Hp.
  apply in_or_app. right. exact H.
Qed.

Lemma strip_in (s : pystr) (c : N) : In c (strip s) -> In c s.
Proof.
  unfold strip, rstrip. intros H. apply in_rev in H. apply lstrip_in in H.
  apply in_rev in H. apply lstrip_in in H. exact H.
Qed.

Lemma strip_idempotent (s : pystr) : strip (strip s) = strip s.
Proof.
  unfold strip, rstrip.
  set (a := lstrip s). set (b := lstrip (rev a)).
  assert (lstrip (rev b) = rev b) as ->.
  { apply lstrip_id. intros c t Hc.
    destruct (lstrip_suffix (rev a)) as [p Hp]. fold b in Hp.
    apply (f_equal (@rev N)) in Hp. rewrite rev_involutive, rev_app_distr in Hp.
    rewrite Hc in Hp. cbn in Hp. apply (lstrip_head s c _ Hp). }
  rewrite rev_involutive.
  rewrite (lstrip_id b); [reflexivity |].
  intros c t Hc. apply (lstrip_head (rev a) c t Hc).
Qed.

(** X5. A response text without a backquote is only trimmed: the cleaning
    removes nothing inside it. *)
Theorem clean_response_without_backquote (text : pystr) :
  ~ In 96%N text -> clean_response text = strip text.
Proof.
  intros Hno. unfold clean_response.
  assert (~ In 96%N (strip text)) as Hs
      by (intros Hin; apply Hno; apply strip_in; exact Hin).
  change (lit "```json" ++ nl) with (96 :: [96; 96; 106; 115; 111; 110; 10])%N.
  change (lit "```") with (96 :: [96; 96])%N.
  rewrite <- (app_nil_r (strip text)) at 1.
  rewrite replace_skips by exact Hs.
  change (replace (96 :: [96; 96; 106; 115; 111; 110; 10])%N [] []) with (@nil N).
  rewrite <- (app_nil_r (strip text ++ [])) at 1.
  rewrite replace_skips by (rewrite app_nil_r; exact Hs).
  change (replace (96 :: [96; 96])%N [] []) with (@nil N).
  rewrite !app_nil_r. apply strip_idempotent.
Qed.

Lemma clean_response_without_backquote_witness :
  clean_response (nl ++ reply_high ++ nl) = reply_high.
Proof.
  rewrite (clean_response_without_backquote (nl ++ reply_high ++ nl)).
  - vm_compute. reflexivity.
  - vm_compute. intuition discriminate.
Defined.

(** ** Exceptions that leave the pipeline *)

Lemma py_get_error (v : pyval) (k : pystr) (d : pyval) (e : exn) :
  py_get v k d = Raise e -> operand_error e.
Proof.
  destruct v; cbn; try discriminate; intros H; injection H as <-; left; reflexivity.
Qed.

Lemma py_slice_to_error (h : bool) (v : pyval) (n : Z) (e : exn) :
  py_slice_to h v n = Raise e -> own_error h e.
Proof.
  destruct v; cbn [py_slice_to]; try discriminate;
    try (intros H; injection H as <-; left; right; left; reflexivity).
  destruct h; intros H; injection H as <-.
  - right. left. split; reflexivity.
  - left. right. left. reflexivity.
Qed.

Lemma py_print_error (text : pystr) (e : exn) :
  py_print text = Raise e -> exn_class e = UnicodeEncodeError.
Proof.
  unfold py_print. destruct (first_surrogate 0 text) as [[[pos c] more] |];
    [| discriminate].
  intros H. injection H as <-. reflexivity.
Qed.

Lemma py_iter_error (v : pyval) (e : exn) :
  py_iter v = Raise e -> operand_error e.
Proof.
  destruct v; cbn; try discriminate; intros H; injection H as <-; right; left;
    reflexivity.
Qed.

Lemma as_float_error (op : pystr) (v : pyval) (e : exn) :
  as_float op v = Raise e -> operand_error e.
Proof.
  destruct v; cbn [as_float]; try discriminate;
    try (intros H; injection H as <-; right; left; reflexivity).
  unfold float_of_int. destruct (is_infinity _); [| discriminate].
  intros H; injection H as <-. right; right; reflexivity.
Qed.

Lemma py_truediv_error (v : pyval) (y : float) (e : exn) :
  py_truediv v y = Raise e -> operand_error e.
Proof.
  unfold py_truediv. destruct (as_float (lit "/") v) eqn:H; cbn; [discriminate |].
  intros H'. injection H' as <-. eapply as_float_error. exact H.
Qed.

Lemma py_sub_error (v : pyval) (y : float) (e : exn) :
  py_sub v y = Raise e -> operand_error e.
Proof.
  unfold py_sub. destruct (as_float (lit "-") v) eqn:H; cbn; [discriminate |].
  intros H'. injection H' as <-. eapply as_float_error. exact H.
Qed.

Lemma analyze_market_error (jl : pystr -> res pyval) (rv : pyval -> pystr)
    (W : world) (key : option pystr) (market : pyval) (log log' : list call)
    (e : exn) :
  analyze_market jl rv W key market log = (log', Raise e) ->
  own_error (hashable_slices W) e.
Proof.
  unfold analyze_market, bind, lift, ret.
  destruct market as [| | | | | | d]; cbn [py_get];
    try (intros H; injection H as _ <-; left; left; reflexivity).
  destruct (py_slice_to _ _ 50) as [clipped | e1] eqn:Hs;
    [| intros H; injection H as _ <-; eapply py_slice_to_error; exact Hs].
  destruct (py_print _) as [[] | e1] eqn:Hprint;
    [| intros H; injection H as _ <-; right; right;
       eapply py_print_error; exact Hprint].
  destruct (search_news_total W key
              (py_str rv (dict_get d (lit "title") (PStr [])) ++ lit " "
               ++ py_str rv (dict_get d (lit "subtitle") (PStr []))) log)
    as (log1 & sources & -> & _).
  rewrite analyze_event_dict.
  destruct (py_truediv _ 100) as [price | e1] eqn:Hp;
    [| intros H; injection H as _ <-; left; eapply py_truediv_error; exact Hp].
  destruct (py_get _ (lit "estimated_probability") _) as [est | e1] eqn:He;
    [| intros H; injection H as _ <-; left; eapply py_get_error; exact He].
  destruct (py_sub est price) as [edge | e1] eqn:Hd;
    [| intros H; injection H as _ <-; left; eapply py_sub_error; exact Hd].
  destruct (py_get _ (lit "confidence") _) as [conf | e1] eqn:Hc;
    [| intros H; injection H as _ <-; left; eapply py_get_error; exact Hc].
  destruct (py_get _ (lit "reasoning") _) as [reasoning | e1] eqn:Hr;
    [| intros H; injection H as _ <-; left; eapply py_get_error; exact Hr].
  discriminate.
Qed.

Lemma analyze_markets_error (jl : pystr -> res pyval) (rv : pyval -> pystr)
    (W : world) (key : option pystr) (markets : list pyval) :
  forall acc log log' e,
    analyze_markets jl rv W key markets acc log = (log', Raise e) ->
    own_error (hashable_slices W) e.
Proof.
  induction markets as [| m rest IH]; intros acc log log' e; cbn [analyze_markets].
  - discriminate.
  - unfold bind at 1.
    destruct (analyze_market jl rv W key m log) as [log1 [r | e1]] eqn:Hm.
    + apply IH.
    + intros H. injection H as _ <-. eapply analyze_market_error. exact Hm.
Qed.

Lemma run_analysis_error (jl : pystr -> res pyval) (rv : pyval -> pystr)
    (W : world) (key : option pystr) (max_events : Z) (log log' : list call)
    (e : exn) :
  run_analysis jl rv W key max_events log = (log', Raise e) ->
  own_error (hashable_slices W) e.
Proof.
  unfold run_analysis, bind, lift.
  destruct (get_active_markets_total W log) as [fetched ->].
  destruct (py_slice_to (hashable_slices W) fetched max_events) as [sliced | e1] eqn:Hs;
    [| intros H; injection H as _ <-; eapply py_slice_to_error; exact Hs].
  destruct (py_iter sliced) as [markets | e1] eqn:Hi;
    [| intros H; injection H as _ <-; left; eapply py_iter_error; exact Hi].
  apply analyze_markets_error.
Qed.

Lemma own_error_classes (h : bool) (e : exn) :
  own_error h e ->
  exn_class e = AttributeError \/ exn_class e = TypeError
  \/ exn_class e = OverflowError \/ exn_class e = KeyError
  \/ exn_class e = UnicodeEncodeError.
Proof.
  intros [[H | [H | H]] | [[H _] | H]]; rewrite H; auto 6.
Qed.

(** X6. An exception that leaves [run_analysis] is one of the program's own:
    an [AttributeError], a [TypeError] or an [OverflowError] from a value of
    the wrong type, a [UnicodeEncodeError] from printing a title, or, only
    on an interpreter whose slices are hashable (Python 3.12 and later), the
    [KeyError] of a dict that is sliced. No exception of the market API, the
    news providers or the model leaves it. *)
Theorem run_analysis_own_errors (jl : pystr -> res pyval) (rv : pyval -> pystr)
    (W : world) (key : option pystr) (max_events : Z) (log log' : list call)
    (e : exn) :
  run_analysis jl rv W key max_events log = (log', Raise e) ->
  (exn_class e = AttributeError \/ exn_class e = TypeError
   \/ exn_class e = OverflowError \/ exn_class e = KeyError
   \/ exn_class e = UnicodeEncodeError)
  /\ (exn_class e = KeyError -> hashable_slices W = true)
  /\ exn_class e <> RequestException /\ exn_class e <> APIError.
Proof.
  intros Hrun. apply run_analysis_error in Hrun.
  split; [eapply own_error_classes; exact Hrun |].
  destruct Hrun as [[H | [H | H]] | [[H Hh] | H]]; rewrite H;
    repeat split; try discriminate; intros _; exact Hh.
Qed.

(** A reply with a probability written as a string ends the run with a
    [TypeError]; a title with a lone surrogate ends it with a
    [UnicodeEncodeError], after the market request alone. *)
Lemma run_analysis_own_errors_witness :
  (exists e, snd (run_analysis Json.loads no_repr
                    (two_markets [string_probability_text; reply_low]) None 10 [])
             = Raise e
             /\ exn_class e = TypeError)
  /\ (let e := Exn UnicodeEncodeError
                 (lit "'utf-8' codec can't encode character '\udc80' in position 17: surrogates not allowed") in
      run_analysis Json.loads no_repr surrogate_world None 10 []
      = ([CallMarkets], Raise e)
      /\ exn_class e <> RequestException /\ exn_class e <> APIError).
Proof.
  split.
  - eexists. split; [vm_compute; reflexivity | reflexivity].
  - cbv zeta.
    assert (run_analysis Json.loads no_repr surrogate_world None 10 []
            = ([CallMarkets],
               Raise (Exn UnicodeEncodeError
                        (lit "'utf-8' codec can't encode character '\udc80' in position 17: surrogates not allowed"))))
      as Hrun by (vm_compute; reflexivity).
    split; [exact Hrun |].
    exact (proj2 (proj2 (run_analysis_own_errors _ _ _ _ _ _ _ _ Hrun))).
Defined.

(** ** How many markets a run analyses *)

Lemma slice_to_length {A : Type} (n : Z) (l : list A) :
  (0 <= n -> (List.length (slice_to n l) <= Z.to_nat n)%nat)
  /\ (n < 0 ->
      List.length (slice_to n l) = Z.to_nat (Z.of_nat (List.length l) + n)).
Proof.
  unfold slice_to. split; intros Hn.
  - destruct (n <? 0) eqn:E; [apply Z.ltb_lt in E; lia |].
    apply firstn_le_length.
  - apply Z.ltb_lt in Hn. rewrite Hn. rewrite length_firstn. lia.
Qed.

(** X8. When the market API returned a list, a run that returns has one
    result for each market of [markets[:max_events]]: at most [max_events]
    results when it is not negative, and all markets but the last
    [-max_events] when it is negative. *)
Theorem run_analysis_count (jl : pystr -> res pyval) (rv : pyval -> pystr)
    (W : world) (key : option pystr) (max_events : Z) (log log1 log' : list call)
    (markets : list pyval) (results : list analysis_result) :
  get_active_markets W log = (log1, Ok (PList markets)) ->
  run_analysis jl rv W key max_events log = (log', Ok results) ->
  List.length results = List.length (slice_to max_events markets)
  /\ (0 <= max_events -> (List.length results <= Z.to_nat max_events)%nat)
  /\ (max_events < 0 ->
      List.length results
      = Z.to_nat (Z.of_nat (List.length markets) + max_events)).
Proof.
  intros Hfetch Hrun. apply run_analysis_length in Hrun.
  destruct Hrun as (fetched & sliced & ms & Hf & Hs & Hi & Hlen).
  rewrite Hfetch in Hf. injection Hf as _ <-.
  cbn in Hs. injection Hs as <-. cbn in Hi. injection Hi as <-.
  rewrite Hlen. destruct (slice_to_length max_events markets) as [H1 H2].
  repeat split; assumption.
Qed.

Lemma run_analysis_count_witness :
  List.length demo_results = 2%nat
  /\ List.length
       (match snd (run_analysis Json.loads no_repr demo_world None (-1) []) with
        | Ok results => results
        | Raise _ => []
        end) = 1%nat.
Proof.
  split.
  - destruct (run_analysis_count Json.loads no_repr demo_world None 10 []
                [CallMarkets] (fst demo_run)
                [market "MKT-A" "Event A" "first" 40;
                 market "MKT-B" "Event B" "second" 60]
                demo_results eq_refl demo_run_ok) as (H & _).
    exact H.
  - vm_compute. reflexivity.
Defined.

(** ** What a result keeps of its market *)

Lemma analyze_market_fields (jl : pystr -> res pyval) (rv : pyval -> pystr)
    (W : world) (key : option pystr) (m : pyval) (log log' : list call)
    (r : analysis_result) :
  analyze_market jl rv W key m log = (log', Ok r) -> result_of_market m r.
Proof.
  unfold analyze_market, bind, lift, ret.
  destruct m as [| | | | | | d]; cbn [py_get]; try discriminate.
  destruct (py_slice_to _ _ 50) as [clipped | e]; [| discriminate].
  destruct (py_print _); [| discriminate].
  destruct (search_news_total W key
              (py_str rv (dict_get d (lit "title") (PStr [])) ++ lit " "
               ++ py_str rv (dict_get d (lit "subtitle") (PStr []))) log)
    as (log1 & sources & -> & _ & Hlen).
  destruct (analyze_event jl rv W (PDict d) sources log1) as [log2 [analysis | e]];
    [| discriminate].
  destruct (py_truediv _ 100) as [price | e]; [| discriminate].
  destruct (py_get analysis (lit "estimated_probability") _) as [est | e];
    [| discriminate].
  destruct (py_sub est price) as [edge | e]; [| discriminate].
  destruct (py_get analysis (lit "confidence") _) as [conf | e]; [| discriminate].
  destruct (py_get analysis (lit "reasoning") _) as [reasoning | e]; [| discriminate].
  intros H. injection H as _ <-.
  exists d. repeat split. exact Hlen.
Qed.

(** X9. The results of a run come in the order of the markets iterated
    over, one for each: a result carries the ticker and the title of its
    market ([N/A] for a missing one), counts at most five sources, and its
    [edge_percent] is its own edge times 100, signed, with one decimal. *)
Theorem run_analysis_results_follow_markets (jl : pystr -> res pyval)
    (rv : pyval -> pystr) (W : world) (key : option pystr) (max_events : Z)
    (log log' : list call) (results : list analysis_result) :
  run_analysis jl rv W key max_events log = (log', Ok results) ->
  exists fetched sliced markets,
    get_active_markets W log = (log ++ [CallMarkets], Ok fetched)
    /\ py_slice_to (hashable_slices W) fetched max_events = Ok sliced
    /\ py_iter sliced = Ok markets
    /\ Forall2 result_of_market markets results.
Proof.
  intros Hrun. apply run_analysis_ok in Hrun.
  destruct Hrun as (fetched & sliced & markets & Hf & Hs & Hi & _ & Hall).
  exists fetched, sliced, markets. repeat split; try assumption.
  eapply Forall2_impl; [| exact Hall].
  intros m r (l & l' & Hm & _). eapply analyze_market_fields. exact Hm.
Qed.

Lemma run_analysis_results_follow_markets_witness :
  map ar_ticker demo_results = [PStr (lit "MKT-A"); PStr (lit "MKT-B")]
  /\ exists markets, Forall2 result_of_market markets demo_results.
Proof.
  split; [vm_compute; reflexivity |].
  destruct (run_analysis_results_follow_markets Json.loads no_repr demo_world
              None 10 [] (fst demo_run) demo_results demo_run_ok)
    as (fetched & sliced & markets & _ & _ & _ & Hall).
  exists markets. exact Hall.
Defined.

(** ** Requests made by a run *)

Lemma search_news_requests (W : world) (key : option pystr) (query : pystr)
    (log log' : list call) (r : res (list news_source)) :
  search_news W key query log = (log', r) ->
  log' = log ++ [CallNewsAPI query]
  \/ log' = log ++ [CallNewsAPI query; CallGoogleNews query]
  \/ log' = log ++ [CallGoogleNews query].
Proof.
  unfold search_news, bind, primary_step, fallback_step, ret.
  destruct (truthy_key key).
  - destruct (fst (primary_try W (newsapi_everything W log query) [])) as [| s rest];
      intros H; injection H as <- _.
    + right. left. rewrite <- app_assoc. reflexivity.
    + left. reflexivity.
  - intros H. injection H as <- _. right. right. reflexivity.
Qed.

Lemma analyze_market_segment (jl : pystr -> res pyval) (rv : pyval -> pystr)
    (W : world) (key : option pystr) (market : pyval) (log log' : list call)
    (r : analysis_result) :
  analyze_market jl rv W key market log = (log', Ok r) ->
  exists calls, log' = log ++ calls /\ result_calls rv r calls.
Proof.
  intros H. pose proof (analyze_market_fields _ _ _ _ _ _ _ _ H) as Hfields.
  apply analyze_market_ok in H.
  destruct H as (d & sources & log1 & analysis & -> & Hnews & Hevent
                 & _ & _ & _ & _ & _ & Hcount).
  destruct Hfields as (d' & Hd & Hticker & Htitle & _). injection Hd as <-.
  rewrite analyze_event_dict in Hevent. injection Hevent as <- _.
  apply search_news_requests in Hnews.
  destruct Hnews as [-> | [-> | ->]]; rewrite <- app_assoc; eexists;
    (split; [reflexivity |]); exists d, sources;
    (split; [exact Hticker |]); (split; [exact Htitle |]);
    (split; [exact Hcount |]).
  - left. reflexivity.
  - right. left. reflexivity.
  - right. right. reflexivity.
Qed.

Lemma analyze_markets_segments (jl : pystr -> res pyval) (rv : pyval -> pystr)
    (W : world) (key : option pystr) (markets : list pyval) :
  forall acc log log' results,
    analyze_markets jl rv W key markets acc log = (log', Ok results) ->
    exists rs segments,
      results = acc ++ rs
      /\ log' = log ++ List.concat segments
      /\ Forall2 (result_calls rv) rs segments.
Proof.
  induction markets as [| m rest IH]; intros acc log log' results;
    cbn [analyze_markets].
  - unfold ret. intros H. injection H as <- <-. exists [], [].
    rewrite !app_nil_r. repeat split. constructor.
  - unfold bind at 1.
    destruct (analyze_market jl rv W key m log) as [log1 [r | e]] eqn:Hm;
      [| discriminate].
    intros H. apply IH in H. destruct H as (rs & segments & -> & -> & Hall).
    apply analyze_market_segment in Hm. destruct Hm as (calls & -> & Hcalls).
    exists (r :: rs), (calls :: segments). cbn [List.concat].
    rewrite <- !app_assoc. repeat split. constructor; assumption.
Qed.

Lemma market_calls_counts (query prompt : pystr) (calls : list call) :
  market_calls query prompt calls ->
  ~ In CallMarkets calls /\ List.length (filter is_claude calls) = 1%nat.
Proof.
  intros [-> | [-> | ->]]; cbn; split; try reflexivity;
    intros H; repeat (destruct H as [H | H]; [discriminate |]); exact H.
Qed.

Lemma segments_counts (rv : pyval -> pystr) (rs : list analysis_result)
    (segments : list (list call)) :
  Forall2 (result_calls rv) rs segments ->
  ~ In CallMarkets (List.concat segments)
  /\ List.length (filter is_claude (List.concat segments)) = List.length rs.
Proof.
  induction 1 as [| r calls rs segments Hcalls _ [IHin IHlen]];
    cbn [List.concat List.length].
  - split; [intros [] | reflexivity].
  - destruct Hcalls as (d & sources & _ & _ & _ & Hcalls).
    destruct (market_calls_counts _ _ _ Hcalls) as (Hin & Hlen). split.
    + intros H. apply in_app_or in H. destruct H; contradiction.
    + rewrite filter_app, length_app, Hlen, IHlen. reflexivity.
Qed.




(** ** The market price *)

Lemma percent_in_unit_all :
  forallb percent_in_unit (map Z.of_nat (seq 0 101)) = true.
Proof. vm_compute. reflexivity. Qed.

Lemma percent_price (z : Z) :
  0 <= z <= 100 ->
  exists p,
    py_truediv (PInt z) 100 = Ok p
    /\ (0 <=? p)%float = true /\ (p <=? 1)%float = true.
Proof.
  intros Hz. pose proof percent_in_unit_all as H.
  rewrite forallb_forall in H. specialize (H z).
  assert (In z (map Z.of_nat (seq 0 101))) as Hin.
  { apply in_map_iff. exists (Z.to_nat z). split; [lia |].
    apply in_seq. lia. }
  specialize (H Hin). unfold percent_in_unit in H.
  destruct (py_truediv (PInt z) 100) as [p | e]; [| discriminate].
  apply andb_prop in H. exists p. split; [reflexivity | exact H].
Qed.

(** X10. For a market whose [yes_bid] is an integer percent from 0 to 100,
    the market price of its result is a float between 0 and 1. *)
Theorem market_price_in_unit (jl : pystr -> res pyval) (rv : pyval -> pystr)
    (W : world) (key : option pystr) (d : list (pystr * pyval)) (z : Z)
    (log log' : list call) (r : analysis_result) :
  dict_lookup d (lit "yes_bid") = Some (PInt z) -> 0 <= z <= 100 ->
  analyze_market jl rv W key (PDict d) log = (log', Ok r) ->
  (0 <=? ar_market_price r)%float = true
  /\ (ar_market_price r <=? 1)%float = true.
Proof.
  intros Hbid Hz Hrun. apply analyze_market_ok in Hrun.
  destruct Hrun as (d' & sources & log1 & analysis & Hd & _ & _ & Hprice & _).
  injection Hd as <-. unfold dict_get in Hprice. rewrite Hbid in Hprice.
  destruct (percent_price z Hz) as (p & Hp & H0 & H1).
  rewrite Hp in Hprice. injection Hprice as <-. split; assumption.
Qed.

Lemma market_price_in_unit_witness :
  Forall (fun r => (0 <=? ar_market_price r)%float = true
                   /\ (ar_market_price r <=? 1)%float = true)
    (match snd (analyze_market Json.loads no_repr demo_world None
                  (PDict market_a) []) with
     | Ok r => [r]
     | Raise _ => []
     end).
Proof.
  destruct (analyze_market Json.loads no_repr demo_world None (PDict market_a) [])
    as [log' [r | e]] eqn:Hrun; cbn [snd]; constructor; [| constructor].
  apply (market_price_in_unit Json.loads no_repr demo_world None market_a 40
           [] log' r); [reflexivity | lia | exact Hrun].
Defined.

(** ** Articles that are not well formed *)

Lemma append_articles_good (good : list pyval) (srcs : list news_source) :
  Forall2 (fun a s => article_source a = Ok s) good srcs ->
  forall rest acc,
    append_articles (good ++ rest) acc = append_articles rest (acc ++ srcs).
Proof.
  induction 1 as [| a s good srcs Ha _ IH]; intros rest acc.
  - rewrite app_nil_r. reflexivity.
  - cbn [app append_articles]. rewrite Ha. rewrite IH.
    rewrite <- app_assoc. reflexivity.
Qed.

(** X11. When the primary provider answers with articles of which the first
    few are well formed and the next is not (one that is no object, or whose
    [source] is no object), [search_news] keeps the sources of the well-formed
    ones before it and drops the rest; if it kept any, it returns them and
    does not ask the feed. *)
Theorem search_news_keeps_good_prefix (W : world) (key : option pystr)
    (query : pystr) (log : list call) (r : response) (j : pyval)
    (good : list pyval) (bad : pyval) (rest : list pyval)
    (srcs : list news_source) (s0 : news_source) (e : exn) :
  truthy_key key = true ->
  newsapi_everything W log query = Ok r -> status_code r = 200 ->
  json r = Ok j ->
  py_get j (lit "articles") (PList []) = Ok (PList (good ++ bad :: rest)) ->
  Forall2 (fun a s => article_source a = Ok s) good (s0 :: srcs) ->
  article_source bad = Raise e ->
  (List.length good < 5)%nat ->
  search_news W key query log = (log ++ [CallNewsAPI query], Ok (s0 :: srcs)).
Proof.
  intros Hkey Hr Hs Hj Ha Hgood Hbad Hlen.
  assert (fst (primary_try W (newsapi_everything W log query) []) = s0 :: srcs) as Hp.
  { unfold primary_try. rewrite Hr, Hs. change (200 =? 200) with true. cbv iota.
    rewrite Hj. cbn [res_bind]. rewrite Ha. cbn [res_bind py_slice_to py_iter].
    unfold slice_to. change (5 <? 0) with false. cbv iota.
    change (Z.to_nat 5) with 5%nat.
    rewrite firstn_app.
    rewrite (firstn_all2 good) by lia.
    destruct (5 - List.length good)%nat as [| k] eqn:Hk; [lia |].
    cbn [firstn]. rewrite (append_articles_good good (s0 :: srcs) Hgood).
    cbn [append_articles app]. rewrite Hbad. reflexivity. }
  unfold search_news, bind, primary_step, fallback_step, ret.
  rewrite Hkey, Hp. reflexivity.
Qed.

Lemma search_news_keeps_good_prefix_witness :
  exists s,
    search_news half_good_world (Some (lit "k")) (lit "Event A first") []
    = ([CallNewsAPI (lit "Event A first")], Ok [s])
    /\ ns_title s = PStr (lit "Good headline").
Proof.
  eexists. split.
  - eapply (search_news_keeps_good_prefix half_good_world (Some (lit "k"))
              (lit "Event A first") [] _ _
              [PDict [ (lit "source", PDict [ (lit "name", PStr (lit "Wire")) ]);
                       (lit "title", PStr (lit "Good headline")) ]]
              (PDict [ (lit "source", PNone);
                       (lit "title", PStr (lit "Bad headline")) ])
              [PDict [ (lit "source", PDict [ (lit "name", PStr (lit "Wire")) ]);
                       (lit "title", PStr (lit "Late headline")) ]]
              [] _ _ eq_refl eq_refl eq_refl eq_refl eq_refl).
    + constructor; [reflexivity | constructor].
    + reflexivity.
    + cbn. lia.
  - reflexivity.
Defined.

(** ** When a run returns *)

Lemma fallback_estimate_well_shaped (e : exn) :
  well_shaped_estimate (fallback_estimate e).
Proof.
  eexists. split; [reflexivity |]. exists 0.5%float. reflexivity.
Qed.

Lemma first_surrogate_none (s : pystr) :
  encodable s = true -> forall pos, first_surrogate pos s = None.
Proof.
  induction s as [| c s IH]; intros H pos; [reflexivity |].
  cbn in H. apply andb_prop in H. destruct H as [Hc Hs].
  cbn [first_surrogate]. apply negb_true_iff in Hc. rewrite Hc.
  apply IH. exact Hs.
Qed.

Lemma py_print_encodable (text : pystr) :
  encodable text = true -> py_print (lit "Analyzing: " ++ text) = Ok tt.
Proof.
  intros H. unfold py_print. rewrite first_surrogate_none; [reflexivity |].
  unfold encodable. rewrite forallb_app. apply andb_true_intro.
  split; [reflexivity | exact H].
Qed.

Lemma analyze_market_succeeds (jl : pystr -> res pyval) (rv : pyval -> pystr)
    (W : world) (key : option pystr) (m : pyval) (log : list call) :
  replies_well_shaped jl W -> well_formed_market m ->
  exists log' r, analyze_market jl rv W key m log = (log', Ok r).
Proof.
  intros Hshape (d & -> & (s & Htitle & Henc) & (z & Hbid & Hz)).
  unfold analyze_market, bind, lift, ret. cbn [py_get].
  rewrite Htitle. cbn [py_slice_to py_str].
  rewrite (py_print_encodable _ Henc).
  match goal with
  | |- context [search_news W key ?q log] =>
      destruct (search_news_total W key q log) as (log1 & sources & -> & _)
  end.
  rewrite analyze_event_dict.
  assert (well_shaped_estimate
            (match estimate_of jl (messages_create W log1
                                     (event_prompt rv d sources)) with
             | Ok v => v
             | Raise e => fallback_estimate e
             end)) as (d' & -> & f & Hf).
  { destruct (estimate_of jl _) as [v | e] eqn:He;
      [| apply fallback_estimate_well_shaped].
    unfold estimate_of in He.
    destruct (messages_create W log1 _) as [msg | e] eqn:Hm; [| discriminate].
    cbn [res_bind] in He.
    destruct (first_text msg) as [text | e] eqn:Ht; [| discriminate].
    cbn [res_bind] in He. unfold parse_response in He.
    eapply Hshape; eassumption. }
  rewrite Hbid. destruct (percent_price z Hz) as (p & -> & _).
  cbn [py_get]. rewrite Hf. cbn [py_sub as_float res_bind].
  eexists _, _. reflexivity.
Qed.

Lemma analyze_markets_succeeds (jl : pystr -> res pyval) (rv : pyval -> pystr)
    (W : world) (key : option pystr) (markets : list pyval) :
  replies_well_shaped jl W -> Forall well_formed_market markets ->
  forall acc log,
    exists log' results,
      analyze_markets jl rv W key markets acc log = (log', Ok results).
Proof.
  intros Hshape Hall. induction Hall as [| m rest Hm _ IH]; intros acc log.
  - eexists _, _. reflexivity.
  - cbn [analyze_markets]. unfold bind at 1.
    destruct (analyze_market_succeeds jl rv W key m log Hshape Hm)
      as (log1 & r & ->).
    apply IH.
Qed.

(** X12. A run returns, with one result for each market of
    [markets[:max_events]], whenever those markets are well formed (a dict
    with a string title whose first 50 characters hold no lone surrogate, so
    that it can be printed, and, if any, an integer [yes_bid] from 0 to 100)
    and every reply of the model that parses as JSON is an object whose
    [estimated_probability], if any, is a float. News lookups and model
    requests may fail in any way. *)
Theorem run_analysis_succeeds (jl : pystr -> res pyval) (rv : pyval -> pystr)
    (W : world) (key : option pystr) (max_events : Z) (log log1 : list call)
    (markets : list pyval) :
  replies_well_shaped jl W ->
  get_active_markets W log = (log1, Ok (PList markets)) ->
  Forall well_formed_market (slice_to max_events markets) ->
  exists log' results,
    run_analysis jl rv W key max_events log = (log', Ok results)
    /\ List.length results = List.length (slice_to max_events markets).
Proof.
  intros Hshape Hfetch Hall.
  assert (exists log' results,
             run_analysis jl rv W key max_events log = (log', Ok results))
    as (log' & results & Hrun).
  { unfold run_analysis, bind, lift. rewrite Hfetch. cbn [py_slice_to py_iter].
    apply analyze_markets_succeeds; assumption. }
  exists log', results. split; [exact Hrun |].
  destruct (run_analysis_length _ _ _ _ _ _ _ _ Hrun)
    as (fetched & sliced & ms & Hf & Hs & Hi & Hlen).
  rewrite Hfetch in Hf. injection Hf as _ <-.
  cbn in Hs. injection Hs as <-. cbn in Hi. injection Hi as <-.
  exact Hlen.
Qed.

Lemma demo_replies_well_shaped : replies_well_shaped Json.loads demo_world.
Proof.
  intros log prompt m text v Hm Ht Hj.
  unfold demo_world, two_markets in Hm. cbn [messages_create] in Hm.
  unfold replies in Hm.
  destruct (List.length (filter is_claude log)) as [| [| k]]; cbn [nth_error] in Hm.
  - injection Hm as <-. cbn [first_text content] in Ht. injection Ht as <-.
    vm_compute in Hj. injection Hj as <-.
    eexists. split; [reflexivity |]. eexists. reflexivity.
  - injection Hm as <-. cbn [first_text content] in Ht. injection Ht as <-.
    vm_compute in Hj. injection Hj as <-.
    eexists. split; [reflexivity |]. eexists. reflexivity.
  - destruct k; discriminate Hm.
Qed.

Lemma demo_markets_well_formed :
  Forall well_formed_market
    (slice_to 10 [market "MKT-A" "Event A" "first" 40;
                  market "MKT-B" "Event B" "second" 60]).
Proof.
  repeat constructor;
    (eexists; split; [reflexivity |]; split;
     [eexists; split; reflexivity | eexists; split; [reflexivity | lia]]).
Qed.

Lemma run_analysis_succeeds_witness :
  exists log' results,
    run_analysis Json.loads no_repr demo_world None 10 [] = (log', Ok results)
    /\ List.length results = 2%nat.
Proof.
  exact (run_analysis_succeeds Json.loads no_repr demo_world None 10 []
           [CallMarkets]
           [market "MKT-A" "Event A" "first" 40;
            market "MKT-B" "Event B" "second" 60]
           demo_replies_well_shaped eq_refl demo_markets_well_formed).
Defined.

(** ** The results the handler lists *)

Lemma SFltb_asym (x y : spec_float) : SFltb x y = true -> SFltb y x = false.
Proof.
  unfold SFltb, SFcompare.
  destruct x as [sx | sx | | sx mx ex], y as [sy | sy | | sy my ey];
    try destruct sx; try destruct sy; try discriminate; try reflexivity.
  - rewrite (Z.compare_antisym ex ey).
    change (PosDef.Pos.compare_cont Eq my mx) with (Pos.compare my mx).
    change (PosDef.Pos.compare_cont Eq mx my) with (Pos.compare mx my).
    rewrite (Pos.compare_antisym mx my).
    destruct (ex ?= ey); cbn; try discriminate; try reflexivity.
    destruct (mx ?= my)%positive; cbn; try discriminate; reflexivity.
  - rewrite (Z.compare_antisym ex ey).
    change (PosDef.Pos.compare_cont Eq my mx) with (Pos.compare my mx).
    change (PosDef.Pos.compare_cont Eq mx my) with (Pos.compare mx my).
    rewrite (Pos.compare_antisym mx my).
    destruct (ex ?= ey); cbn; try discriminate; try reflexivity.
    destruct (mx ?= my)%positive; cbn; try discriminate; reflexivity.
Qed.

Lemma ltb_asym (a b : float) : (a <? b)%float = true -> (b <? a)%float = false.
Proof. rewrite !ltb_spec. apply SFltb_asym. Qed.

Lemma leb_not_nan (a b : float) : (a <=? b)%float = true -> (b =? b)%float = true.
Proof.
  rewrite leb_spec, FloatAxioms.eqb_spec. unfold SFleb, SFeqb, SFcompare.
  destruct (Prim2SF a) as [sa | sa | | sa ma ea],
           (Prim2SF b) as [sb | sb | | sb mb eb];
    try discriminate; intros _; try destruct sb; try reflexivity;
    rewrite Z.compare_refl;
    change (PosDef.Pos.compare_cont Eq mb mb) with (Pos.compare mb mb);
    rewrite Pos.compare_refl; reflexivity.
Qed.

Lemma insert_by_abs_edge_perm (r : analysis_result) (l : list analysis_result) :
  Permutation (insert_by_abs_edge r l) (r :: l).
Proof.
  induction l as [| x l IH]; cbn [insert_by_abs_edge]; [apply Permutation_refl |].
  destruct (abs_edge r <? abs_edge x)%float; [| apply Permutation_refl].
  eapply Permutation_trans; [apply perm_skip; exact IH | apply perm_swap].
Qed.

Lemma sort_by_abs_edge_cons (r : analysis_result) (l : list analysis_result) :
  sort_by_abs_edge (r :: l) = insert_by_abs_edge r (sort_by_abs_edge l).
Proof. reflexivity. Qed.

Lemma sort_by_abs_edge_perm (l : list analysis_result) :
  Permutation (sort_by_abs_edge l) l.
Proof.
  induction l as [| r l IH]; [constructor |]. rewrite sort_by_abs_edge_cons.
  eapply Permutation_trans; [apply insert_by_abs_edge_perm |].
  apply perm_skip. exact IH.
Qed.

Lemma insert_by_abs_edge_sorted (r : analysis_result) (l : list analysis_result) :
  Sorted not_below l -> Sorted not_below (insert_by_abs_edge r l).
Proof.
  induction l as [| x l IH]; intros Hs; cbn [insert_by_abs_edge].
  - repeat constructor.
  - destruct (abs_edge r <? abs_edge x)%float eqn:Hlt.
    + inversion Hs as [| ? ? Hs' Hhd]; subst.
      constructor; [apply IH; exact Hs' |].
      destruct l as [| y l]; cbn [insert_by_abs_edge].
      * constructor. apply ltb_asym. exact Hlt.
      * destruct (abs_edge r <? abs_edge y)%float.
        -- inversion Hhd; subst. constructor. assumption.
        -- constructor. apply ltb_asym. exact Hlt.
    + constructor; [exact Hs |]. constructor. exact Hlt.
Qed.

Lemma sort_by_abs_edge_sorted (l : list analysis_result) :
  Sorted not_below (sort_by_abs_edge l).
Proof.
  induction l as [| r l IH]; [constructor |]. rewrite sort_by_abs_edge_cons.
  apply insert_by_abs_edge_sorted. exact IH.
Qed.

(** X13. The results the handler lists are those of the run whose absolute
    edge is at least [min_edge], each once and no other, in an order in
    which no result is followed by one of greater absolute edge; none of
    them has a NaN edge. *)
Theorem opportunities_filtered_sorted (min_edge : float)
    (results : list analysis_result) :
  Permutation (opportunities min_edge results) (filter_by_edge min_edge results)
  /\ Sorted not_below (opportunities min_edge results)
  /\ (forall r, In r (opportunities min_edge results)
                <-> In r results /\ (min_edge <=? abs_edge r)%float = true)
  /\ Forall (fun r => (abs_edge r =? abs_edge r)%float = true)
       (opportunities min_edge results)
  /\ (List.length (opportunities min_edge results) <= List.length results)%nat.
Proof.
  unfold opportunities.
  pose proof (sort_by_abs_edge_perm (filter_by_edge min_edge results)) as Hperm.
  assert (forall r, In r (sort_by_abs_edge (filter_by_edge min_edge results))
                    <-> In r results /\ (min_edge <=? abs_edge r)%float = true)
    as Hin.
  { intros r. split.
    - intros H. apply (Permutation_in _ Hperm) in H. apply filter_In in H.
      exact H.
    - intros H. apply (Permutation_in _ (Permutation_sym Hperm)).
      apply filter_In. exact H. }
  split; [exact Hperm |].
  split; [apply sort_by_abs_edge_sorted |].
  split; [exact Hin |].
  split.
  - apply Forall_forall. intros r Hr. apply Hin in Hr. destruct Hr as [_ Hr].
    eapply leb_not_nan. exact Hr.
  - rewrite (Permutation_length Hperm). unfold filter_by_edge.
    apply filter_length_le.
Qed.

(** ** The analysis endpoint *)

Lemma run_asks_once_per_result (jl : pystr -> res pyval) (rv : pyval -> pystr)
    (W : world) (key : option pystr) (max_events : Z) (log log' : list call)
    (results : list analysis_result) :
  run_analysis jl rv W key max_events log = (log', Ok results) ->
  exists calls,
    log' = log ++ CallMarkets :: calls
    /\ ~ In CallMarkets calls
    /\ List.length (filter is_claude calls) = List.length results.
Proof.
  intros Hrun. apply run_analysis_ok in Hrun.
  destruct Hrun as (fetched & sliced & markets & _ & _ & _ & Hloop & Hall).
  apply Forall2_length in Hall.
  apply analyze_markets_segments in Hloop.
  destruct Hloop as (rs & segments & -> & -> & Hcalls).
  destruct (segments_counts _ _ _ Hcalls) as [Hin Hclaude].
  exists (List.concat segments). rewrite <- app_assoc.
  split; [reflexivity |]. split; assumption.
Qed.

Section HandlerProperties.

Variable jl : pystr -> res pyval.
Variable rv : pyval -> pystr.
Variable int_of_str : pystr -> Z + pystr.
Variable float_of_str : pystr -> float + pystr.
Variable dumps : bool -> pyval -> pystr.
Variable class_name : exn -> pystr.
Variable W : world.
Variable clock : list call -> pystr.
Variable anthropic_key news_key : option pystr.

Local Abbreviation the_handler :=
  (handler jl rv int_of_str float_of_str dumps class_name W clock
     anthropic_key news_key).
Local Abbreviation the_parameters := (parameters int_of_str float_of_str).

Lemma py_int_error (v : pyval) (e : exn) :
  py_int int_of_str v = Raise e -> handler_error e.
Proof.
  destruct v; cbn [py_int]; try discriminate;
    try (intros H; injection H as <-; left; right; left; reflexivity).
  - unfold int_of_float. destruct (Prim2SF f); try discriminate;
      intros H; injection H as <-; [left; right; right | right]; reflexivity.
  - destruct (int_of_str s); [discriminate |].
    intros H; injection H as <-. right. reflexivity.
Qed.

Lemma py_float_error (v : pyval) (e : exn) :
  py_float float_of_str v = Raise e -> handler_error e.
Proof.
  destruct v; cbn [py_float]; try discriminate;
    try (intros H; injection H as <-; left; right; left; reflexivity).
  - unfold float_of_int. destruct (is_infinity _); [| discriminate].
    intros H; injection H as <-. left; right; right; reflexivity.
  - destruct (float_of_str s); [discriminate |].
    intros H; injection H as <-. right. reflexivity.
Qed.

Lemma parameters_error (ev : list (pystr * pyval)) (e : exn) :
  the_parameters ev = Raise e -> handler_error e.
Proof.
  unfold parameters.
  destruct (py_get (request_params ev) (lit "max_events") (PInt 10))
    as [raw_max | e1] eqn:Hmax; cbn [res_bind].
  2:{ intros H; injection H as <-. left. eapply py_get_error. exact Hmax. }
  destruct (py_int int_of_str raw_max) as [max_events | e1] eqn:Hint;
    cbn [res_bind].
  2:{ intros H; injection H as <-. eapply py_int_error. exact Hint. }
  destruct (py_get (request_params ev) (lit "min_edge") (PFloat 0.05))
    as [raw_min | e1] eqn:Hmin; cbn [res_bind].
  2:{ intros H; injection H as <-. left. eapply py_get_error. exact Hmin. }
  destruct (py_float float_of_str raw_min) as [min_edge | e1] eqn:Hfl;
    cbn [res_bind]; [discriminate |].
  intros H; injection H as <-. eapply py_float_error. exact Hfl.
Qed.

Lemma handle_exception_status (e : exn) :
  handler_error e -> statusCode (handle_exception dumps class_name e) = 500.
Proof.
  unfold handle_exception.
  intros [[H | [H | H]] | H]; rewrite H; reflexivity.
Qed.

Lemma handle_own_error_status (h : bool) (e : exn) :
  own_error h e -> statusCode (handle_exception dumps class_name e) = 500.
Proof.
  unfold handle_exception.
  intros [[H | [H | H]] | [[H _] | H]]; rewrite H; reflexivity.
Qed.

(** The handler on a request that is a dict, case by case. *)
Lemma handler_cases (ev : list (pystr * pyval)) (log : list call) :
  (is_options ev = true /\
   the_handler (PDict ev) log
   = (log, Ok {| statusCode := 200; headers := analyze_headers;
                 body := dumps true (PDict [ (lit "status", PStr (lit "ok")) ]) |}))
  \/ (is_options ev = false /\ truthy_key anthropic_key = false /\
      the_handler (PDict ev) log
      = (log,
         Ok {| statusCode := 500; headers := analyze_headers;
               body := dumps true
                         (PDict [ (lit "error",
                                    PStr (lit "ANTHROPIC_API_KEY not configured")) ]) |}))
  \/ (is_options ev = false /\ truthy_key anthropic_key = true /\
      exists e,
        the_parameters ev = Raise e
        /\ the_handler (PDict ev) log
           = (log, Ok (handle_exception dumps class_name e)))
  \/ (is_options ev = false /\ truthy_key anthropic_key = true /\
      exists max_events min_edge,
        the_parameters ev = Ok (max_events, min_edge)
        /\ ((exists log' e,
               run_analysis jl rv W news_key (Z.min max_events 15) log
               = (log', Raise e)
               /\ the_handler (PDict ev) log
                  = (log', Ok (handle_exception dumps class_name e)))
            \/ (exists log' results,
                  run_analysis jl rv W news_key (Z.min max_events 15) log
                  = (log', Ok results)
                  /\ the_handler (PDict ev) log
                     = (log',
                        Ok {| statusCode := 200; headers := analyze_headers;
                              body := dumps false
                                        (response_data (clock log') results
                                           (opportunities min_edge results)) |})))).
Proof.
  unfold handler, parameters, bind, lift, ret, try_except. cbn [py_get].
  fold (is_options ev).
  destruct (is_options ev) eqn:Hopt; [left; split; reflexivity |].
  right.
  destruct (truthy_key anthropic_key) eqn:Hkey; cbn [negb].
  2:{ left. repeat split. }
  right. fold (request_params ev).
  destruct (py_get (request_params ev) (lit "max_events") (PInt 10))
    as [raw_max | e] eqn:Hmax; cbn [res_bind].
  2:{ left. repeat split. exists e. split; reflexivity. }
  destruct (py_int int_of_str raw_max) as [max_events | e] eqn:Hint;
    cbn [res_bind].
  2:{ left. repeat split. exists e. split; reflexivity. }
  destruct (py_get (request_params ev) (lit "min_edge") (PFloat 0.05))
    as [raw_min | e] eqn:Hmin; cbn [res_bind].
  2:{ left. repeat split. exists e. split; reflexivity. }
  destruct (py_float float_of_str raw_min) as [min_edge | e] eqn:Hfl;
    cbn [res_bind].
  2:{ left. repeat split. exists e. split; reflexivity. }
  right. repeat split.
  exists max_events, min_edge. split; [reflexivity |].
  destruct (run_analysis jl rv W news_key (Z.min max_events 15) log)
    as [log' [results | e]] eqn:Hrun.
  - right. exists log', results. split; reflexivity.
  - left. exists log', e. split; reflexivity.
Qed.

(** X14. For every request that is a dict the handler returns a response and
    raises nothing; its status is 200 or 500, never 503: no exception of a
    service reaches the handler's network clause. A preflight (OPTIONS) is
    answered 200 and a request without the Anthropic key 500, both without
    any request to a service. *)
Theorem handler_answers (ev : list (pystr * pyval)) (log : list call) :
  exists log' resp,
    the_handler (PDict ev) log = (log', Ok resp)
    /\ (statusCode resp = 200 \/ statusCode resp = 500)
    /\ (is_options ev = true -> log' = log /\ statusCode resp = 200)
    /\ (is_options ev = false -> truthy_key anthropic_key = false ->
        log' = log /\ statusCode resp = 500).
Proof.
  destruct (handler_cases ev log)
    as [[Hopt H] | [(Hopt & Hkey & H)
       | [(Hopt & Hkey & e & He & H)
         | (Hopt & Hkey & max_events & min_edge & _
            & [(log' & e & Hrun & H) | (log' & results & Hrun & H)])]]];
    rewrite H; eexists _, _; (split; [reflexivity |]).
  - repeat split; try (left; reflexivity); try reflexivity; congruence.
  - repeat split; try (right; reflexivity); congruence.
  - rewrite (handle_exception_status e (parameters_error ev e He)).
    repeat split; try (right; reflexivity); congruence.
  - rewrite (handle_own_error_status _ e
               (run_analysis_error _ _ _ _ _ _ _ _ Hrun)).
    repeat split; try (right; reflexivity); congruence.
  - cbn [statusCode]. repeat split; try (left; reflexivity); congruence.
Qed.

Lemma slice_iter_length (h : bool) (v sliced : pyval) (n : Z)
    (markets : list pyval) :
  0 <= n -> py_slice_to h v n = Ok sliced -> py_iter sliced = Ok markets ->
  (List.length markets <= Z.to_nat n)%nat.
Proof.
  intros Hn. destruct v; cbn [py_slice_to]; try discriminate;
    try (destruct h; discriminate);
    intros H; injection H as <-; cbn; intros H; injection H as <-.
  - rewrite length_map. apply (slice_to_length n s). exact Hn.
  - apply (slice_to_length n l). exact Hn.
Qed.

(** X15. A 200 answer to a request that is no preflight reports a run of
    [run_analysis] with [min(max_events, 15)]: [total_analyzed] counts its
    results, [results] lists those of absolute edge at least [min_edge],
    sorted, and [total_opportunities] counts them. The market API was asked
    once, first, and the model once per result; when [max_events] is not
    negative, at most 15 times. *)
Theorem handler_success (ev : list (pystr * pyval)) (log log' : list call)
    (resp : http_response) :
  the_handler (PDict ev) log = (log', Ok resp) ->
  is_options ev = false -> statusCode resp = 200 ->
  exists max_events min_edge results calls,
    the_parameters ev = Ok (max_events, min_edge)
    /\ run_analysis jl rv W news_key (Z.min max_events 15) log = (log', Ok results)
    /\ body resp
       = dumps false
           (response_data (clock log') results (opportunities min_edge results))
    /\ log' = log ++ CallMarkets :: calls
    /\ ~ In CallMarkets calls
    /\ List.length (filter is_claude calls) = List.length results
    /\ (0 <= max_events -> (List.length results <= 15)%nat).
Proof.
  intros Hrun Hopt Hstatus.
  destruct (handler_cases ev log)
    as [[Hopt' _] | [(_ & _ & H)
       | [(_ & _ & e & He & H)
         | (_ & _ & max_events & min_edge & Hpar
            & [(l & e & Hr & H) | (l & results & Hr & H)])]]].
  - congruence.
  - rewrite H in Hrun. injection Hrun as _ <-. discriminate.
  - rewrite H in Hrun. injection Hrun as _ <-.
    rewrite (handle_exception_status e (parameters_error ev e He)) in Hstatus.
    discriminate.
  - rewrite H in Hrun. injection Hrun as _ <-.
    rewrite (handle_own_error_status _ e
               (run_analysis_error _ _ _ _ _ _ _ _ Hr))
      in Hstatus. discriminate.
  - rewrite H in Hrun. injection Hrun as <- <-.
    destruct (run_asks_once_per_result _ _ _ _ _ _ _ _ Hr)
      as (calls & Hlog & Hin & Hc).
    exists max_events, min_edge, results, calls.
    split; [exact Hpar |]. split; [exact Hr |]. split; [reflexivity |].
    split; [exact Hlog |]. split; [exact Hin |]. split; [exact Hc |].
    intros Hpos. apply run_analysis_length in Hr.
    destruct Hr as (fetched & sliced & markets & _ & Hs & Hi & ->).
    assert (0 <= Z.min max_events 15) as Hmin0 by lia.
    pose proof (slice_iter_length _ _ _ _ _ Hmin0 Hs Hi). lia.
Qed.

(** X16. A request whose [max_events] is no integer, or whose [min_edge] is
    no number, is answered 500 with the text of the conversion's exception,
    before any request to a service. *)
Theorem handler_rejects_bad_parameter (ev : list (pystr * pyval))
    (log : list call) (e : exn) :
  is_options ev = false -> truthy_key anthropic_key = true ->
  the_parameters ev = Raise e ->
  exists resp,
    the_handler (PDict ev) log = (log, Ok resp)
    /\ statusCode resp = 500
    /\ body resp
       = dumps true
           (PDict [ (lit "success", PBool false);
                    (lit "error", PStr (exn_str e));
                    (lit "type", PStr (class_name e));
                    (lit "message",
                      PStr (lit "An unexpected error occurred. Check function logs for details.")) ]).
Proof.
  intros Hopt Hkey Hpar.
  destruct (handler_cases ev log)
    as [[Hopt' _] | [(_ & Hkey' & _)
       | [(_ & _ & e' & He & H)
         | (_ & _ & max_events & min_edge & Hpar' & _)]]]; try congruence.
  rewrite Hpar in He. injection He as <-.
  exists (handle_exception dumps class_name e). split; [exact H |].
  pose proof (parameters_error ev e Hpar) as Hc.
  unfold handle_exception.
  destruct Hc as [[Hc | [Hc | Hc]] | Hc]; rewrite Hc; split; reflexivity.
Qed.

(** X17. The limit of 15 does not bind a negative [max_events]: the slice
    [markets[:max_events]] then drops the last [-max_events] markets, and a
    200 answer reports one result for each of the others, however many. *)
Theorem handler_negative_max_events (ev : list (pystr * pyval))
    (log log1 log' : list call) (resp : http_response) (max_events : Z)
    (min_edge : float) (markets : list pyval) :
  the_handler (PDict ev) log = (log', Ok resp) ->
  is_options ev = false -> statusCode resp = 200 ->
  the_parameters ev = Ok (max_events, min_edge) -> max_events < 0 ->
  get_active_markets W log = (log1, Ok (PList markets)) ->
  exists results,
    body resp
    = dumps false
        (response_data (clock log') results (opportunities min_edge results))
    /\ List.length results
       = Z.to_nat (Z.of_nat (List.length markets) + max_events).
Proof.
  intros Hrun Hopt Hstatus Hpar Hneg Hfetch.
  destruct (handler_cases ev log)
    as [[Hopt' _] | [(_ & _ & H)
       | [(_ & _ & e & He & H)
         | (_ & _ & max_events' & min_edge' & Hpar'
            & [(l & e & Hr & H) | (l & results & Hr & H)])]]];
    try congruence.
  - rewrite H in Hrun. injection Hrun as _ <-. discriminate.
  - rewrite H in Hrun. injection Hrun as _ <-.
    rewrite (handle_own_error_status _ e
               (run_analysis_error _ _ _ _ _ _ _ _ Hr))
      in Hstatus. discriminate.
  - rewrite H in Hrun. injection Hrun as <- <-.
    rewrite Hpar in Hpar'. injection Hpar' as <- <-.
    exists results. split; [reflexivity |].
    replace (Z.min max_events 15) with max_events in Hr by lia.
    apply run_analysis_length in Hr.
    destruct Hr as (fetched & sliced & ms & Hf & Hs & Hi & ->).
    rewrite Hfetch in Hf. injection Hf as _ <-.
    cbn in Hs. injection Hs as <-. cbn in Hi. injection Hi as <-.
    apply (slice_to_length max_events markets). exact Hneg.
Qed.

End HandlerProperties.

Lemma handler_success_witness :
  let ev := [ (lit "httpMethod", PStr (lit "GET"));
              (lit "queryStringParameters",
                PDict [ (lit "max_events", PStr (lit "1"));
                        (lit "min_edge", PStr (lit "0.05")) ]) ] in
  exists log' resp max_events min_edge results calls,
    run_handler demo_world (Some (lit "sk")) (PDict ev) = (log', Ok resp)
    /\ parameters read_int read_float ev = Ok (max_events, min_edge)
    /\ run_analysis Json.loads no_repr demo_world None (Z.min max_events 15) []
       = (log', Ok results)
    /\ log' = [] ++ CallMarkets :: calls
    /\ ~ In CallMarkets calls
    /\ List.length (filter is_claude calls) = List.length results
    /\ (List.length results <= 15)%nat.
Proof.
  intros ev.
  destruct (run_handler demo_world (Some (lit "sk")) (PDict ev))
    as [log' [resp | e]] eqn:Hrun; [| vm_compute in Hrun; discriminate].
  assert (statusCode resp = 200) as Hstatus
      by (vm_compute in Hrun; injection Hrun as _ <-; reflexivity).
  destruct (handler_success Json.loads no_repr read_int read_float no_dumps
              no_class demo_world no_clock (Some (lit "sk")) None ev [] log'
              resp Hrun eq_refl Hstatus)
    as (max_events & min_edge & results & calls & Hpar & Hr & _ & Hlog & Hin
        & Hc & Hlen).
  exists log', resp, max_events, min_edge, results, calls.
  split; [reflexivity |]. split; [exact Hpar |]. split; [exact Hr |].
  split; [exact Hlog |]. split; [exact Hin |]. split; [exact Hc |].
  apply Hlen. vm_compute in Hpar. injection Hpar as <- _. lia.
Defined.

Lemma handler_rejects_bad_parameter_witness :
  let ev := [ (lit "httpMethod", PStr (lit "GET"));
              (lit "queryStringParameters",
                PDict [ (lit "max_events", PStr (lit "ten")) ]) ] in
  exists resp,
    run_handler demo_world (Some (lit "sk")) (PDict ev) = ([], Ok resp)
    /\ statusCode resp = 500.
Proof.
  intros ev.
  destruct (handler_rejects_bad_parameter Json.loads no_repr read_int read_float
              no_dumps no_class demo_world no_clock (Some (lit "sk")) None ev []
              (Exn ValueError (lit "invalid literal for int() with base 10"))
              eq_refl eq_refl eq_refl)
    as (resp & H & Hs & _).
  exists resp. split; assumption.
Defined.

Lemma crowded_run_ok :
  exists log' resp,
    handler Json.loads no_repr read_int read_float no_dumps no_class
      crowded_world no_clock (Some (lit "sk")) None (PDict crowded_request) []
    = (log', Ok resp)
    /\ statusCode resp = 200.
Proof. eexists _, _. vm_compute. split; reflexivity. Qed.

Lemma crowded_parameters :
  parameters read_int read_float crowded_request = Ok (-1, 0.05%float).
Proof. vm_compute. reflexivity. Qed.

Lemma crowded_markets :
  get_active_markets crowded_world []
  = ([CallMarkets], Ok (PList (repeat (market "MKT-A" "Event A" "first" 40) 20))).
Proof. vm_compute. reflexivity. Qed.

Lemma crowded_request_get : is_options crowded_request = false.
Proof. vm_compute. reflexivity. Qed.

Lemma handler_negative_max_events_witness :
  exists log' resp results,
    handler Json.loads no_repr read_int read_float no_dumps no_class
      crowded_world no_clock (Some (lit "sk")) None (PDict crowded_request) []
    = (log', Ok resp)
    /\ body resp
       = no_dumps false (response_data (no_clock log') results
                           (opportunities 0.05 results))
    /\ List.length results = 19%nat.
Proof.
  destruct crowded_run_ok as (log' & resp & Hrun & Hstatus).
  destruct (handler_negative_max_events Json.loads no_repr read_int read_float
              no_dumps no_class crowded_world no_clock (Some (lit "sk")) None
              crowded_request [] [CallMarkets] log' resp (-1) 0.05
              (repeat (market "MKT-A" "Event A" "first" 40) 20)
              Hrun crowded_request_get Hstatus crowded_parameters
              (eq_refl : -1 < 0) crowded_markets)
    as (results & Hbody & Hlen).
  exists log', resp, results.
  split; [exact Hrun |]. split; [exact Hbody |]. exact Hlen.
Defined.

(** ** Results made without an estimate *)

Lemma price_only_all :
  forallb price_only_at (map Z.of_nat (seq 0 101)) = true.
Proof. vm_compute. reflexivity. Qed.

Lemma same_recommendation_eq (a b : recommendation) :
  same_recommendation a b = true -> a = b.
Proof. destruct a, b; cbn; congruence. Qed.

Lemma price_only_recommend (z : Z) (price : float) :
  0 <= z <= 100 -> py_truediv (PInt z) 100 = Ok price ->
  recommend (PStr (lit "LOW")) (0.5 - price)%float = price_only z.
Proof.
  intros Hz Hprice. pose proof price_only_all as H.
  rewrite forallb_forall in H. specialize (H z).
  assert (In z (map Z.of_nat (seq 0 101))) as Hin.
  { apply in_map_iff. exists (Z.to_nat z). split; [lia |].
    apply in_seq. lia. }
  specialize (H Hin). unfold price_only_at in H. rewrite Hprice in H.
  apply same_recommendation_eq. exact H.
Qed.

Lemma analyze_market_unaided (jl : pystr -> res pyval) (rv : pyval -> pystr)
    (W : world) (key : option pystr) (m : pyval) (log log' : list call)
    (r : analysis_result) :
  no_estimate jl W ->
  analyze_market jl rv W key m log = (log', Ok r) -> unaided_result m r.
Proof.
  intros Hdown. unfold analyze_market, bind, lift, ret.
  destruct m as [| | | | | | d]; cbn [py_get]; try discriminate.
  destruct (py_slice_to _ _ 50) as [clipped | e]; [| discriminate].
  destruct (py_print _); [| discriminate].
  destruct (search_news W key _ log) as [log1 [sources | e]]; [| discriminate].
  rewrite analyze_event_dict.
  destruct (Hdown log1 (event_prompt rv d sources)) as [e He]. rewrite He.
  destruct (py_truediv _ 100) as [price | e1] eqn:Hprice; [| discriminate].
  change (py_get (fallback_estimate e) (lit "estimated_probability") (PFloat 0.5))
    with (Ok (PFloat 0.5)).
  change (py_sub (PFloat 0.5) price) with (Ok (0.5 - price)%float).
  change (py_get (fallback_estimate e) (lit "confidence") (PStr (lit "LOW")))
    with (Ok (PStr (lit "LOW"))).
  change (py_get (fallback_estimate e) (lit "reasoning") (PStr []))
    with (Ok (PStr (lit "Error: " ++ exn_str e))).
  intros H. injection H as _ <-.
  cbv beta iota delta [ar_estimated_probability ar_confidence ar_reasoning
                       ar_recommendation].
  repeat split.
  - exists e. reflexivity.
  - intros d' z Hd Hz Hrange. injection Hd as <-. rewrite Hz in Hprice.
    apply price_only_recommend; assumption.
Qed.

(** X18. When no answer of the model yields an estimate, a run that returns
    gives every market the estimate 0.5 with confidence LOW and a reasoning
    that starts with [Error: ], and still recommends by the price alone: for
    an integer [yes_bid] from 0 to 100, BUY up to 35, SELL from 65, HOLD
    between. *)
Theorem run_without_estimates (jl : pystr -> res pyval) (rv : pyval -> pystr)
    (W : world) (key : option pystr) (max_events : Z) (log log' : list call)
    (results : list analysis_result) :
  no_estimate jl W ->
  run_analysis jl rv W key max_events log = (log', Ok results) ->
  exists fetched sliced markets,
    get_active_markets W log = (log ++ [CallMarkets], Ok fetched)
    /\ py_slice_to (hashable_slices W) fetched max_events = Ok sliced
    /\ py_iter sliced = Ok markets
    /\ Forall2 unaided_result markets results.
Proof.
  intros Hdown Hrun. apply run_analysis_ok in Hrun.
  destruct Hrun as (fetched & sliced & markets & Hf & Hs & Hi & _ & Hall).
  exists fetched, sliced, markets. repeat split; try assumption.
  eapply Forall2_impl; [| exact Hall].
  intros m r (l & l' & Hm & _). eapply analyze_market_unaided; eassumption.
Qed.

Lemma mute_world_no_estimate : no_estimate Json.loads mute_world.
Proof.
  intros log prompt. exists (Exn APIError (lit "Connection error.")).
  cbn [mute_world messages_create]. unfold replies.
  destruct (List.length (filter is_claude log)); reflexivity.
Qed.

Lemma mute_run_ok : mute_run = (fst mute_run, Ok mute_results).
Proof. vm_compute. reflexivity. Qed.

Lemma run_without_estimates_witness :
  map ar_recommendation mute_results = [BUY; SELL]
  /\ exists markets, Forall2 unaided_result markets mute_results.
Proof.
  split; [vm_compute; reflexivity |].
  destruct (run_without_estimates Json.loads no_repr mute_world None 10 []
              (fst mute_run) mute_results mute_world_no_estimate mute_run_ok)
    as (fetched & sliced & markets & _ & _ & _ & Hall).
  exists markets. exact Hall.
Defined.

(** ** The sign of the edge in percent *)

(** X19. The edge in percent is always written with its sign: [-] for a
    negative number, [+] for a positive one, so [+] or [-] for every float
    (a NaN is written [+nan], a zero with the sign it has). *)
Theorem format_plus_1f_signed (x : float) :
  (starts_with (lit "+") (format_plus_1f x)
   || starts_with (lit "-") (format_plus_1f x) = true)
  /\ ((x <? 0)%float = true -> starts_with (lit "-") (format_plus_1f x) = true)
  /\ ((0 <? x)%float = true -> starts_with (lit "+") (format_plus_1f x) = true).
Proof.
  rewrite !ltb_spec. change (Prim2SF 0) with (S754_zero false).
  unfold format_plus_1f.
  destruct (Prim2SF x) as [[] | [] | | [] m e];
    repeat split; try reflexivity; cbn; discriminate.
Qed.
